(** * Steam library analytics: a shallow embedding of [game_data_analyzer.py]
      and of the tool methods of [agent.py], with the properties of the
      library analyzer stated and proved over it.

    Layout: the Python run-time notions the code relies on (exceptions,
    [int / int], [round(x, 1)], [sorted], [max], slices, [strftime]), then
    [GameDataAnalyzer], then [SteamStatsAgent], then the theorems.

    How the code is read:
    - a Python [int] is a [Z], a [float] a binary64 value, a [str] a
      [string]; a dict whose keys may be absent is a record of options;
    - a method that can raise returns a [result]; a method that assigns
      attributes returns the new object;
    - [datetime.now()] is an argument [now], the clock reading in whole
      seconds since the epoch, read once for a call; the local time zone
      is an argument [tz];
    - the store API is a record of functions from request to response.
    Python gives up with [OverflowError] or [ValueError] on an int beyond
    the double range (about 1.8e308) and on a date outside the years 1 to
    9999; the embedding computes on there, and agrees with Python wherever
    Python returns. *)

From Stdlib Require Import ZArith List Bool Lia String Ascii.
From Stdlib Require Import Sorting.Permutation Sorting.Sorted.
From Stdlib Require Import Floats.SpecFloat.
From Stdlib Require Import DecimalString.
Import ListNotations.
Open Scope Z_scope.

(* ================================================================= *)
(** ** Exceptions *)

(** The exceptions the modelled code can raise or catch. *)
Inductive exn : Type :=
| ZeroDivisionError
| ValueError
| TypeError
| AttributeError
| KeyError (key : string)
| RequestError (msg : string).

Inductive result (A : Type) : Type :=
| Ok (a : A)
| Raise (e : exn).

Arguments Ok {A} a.
Arguments Raise {A} e.

Definition bind {A B : Type} (m : result A) (k : A -> result B) : result B :=
  match m with
  | Ok a => k a
  | Raise e => Raise e
  end.

Notation "x <- m ;; k" := (bind m (fun x => k))
  (at level 61, m at next level, right associativity).

(** [acc = []; for x in l: if cond(x): acc.append(body(x))]: the loop
    every listing is built with. *)
Fixpoint for_append {A B : Type} (cond : A -> bool) (body : A -> result B)
         (acc : list B) (l : list A) : result (list B) :=
  match l with
  | [] => Ok acc
  | x :: l' =>
      if cond x
      then y <- body x ;; for_append cond body (acc ++ [y]) l'
      else for_append cond body acc l'
  end.

(** [d.get(key, default)]: a dict entry that may be absent is an [option]. *)
Definition dict_get {A : Type} (entry : option A) (default : A) : A :=
  match entry with
  | Some v => v
  | None => default
  end.

(** [d[key]]: raises [KeyError] when the entry is absent. *)
Definition dict_index {A : Type} (key : string) (entry : option A) : result A :=
  match entry with
  | Some v => Ok v
  | None => Raise (KeyError key)
  end.

(* ================================================================= *)
(** ** Floating point: binary64 as [spec_float] *)

(** Python's [float] is IEEE binary64.  The operations below are the
    standard library's executable specification of it, so every value
    can be computed inside the logic. *)
Definition float : Type := spec_float.
Definition prec : Z := 53.
Definition emax : Z := 1024.


(** An integer with an explicit sign, as the exact (unrounded) float
    operand [z * 2^0]. *)
Definition signed_int (s : bool) (z : Z) : float :=
  match z with
  | Z0 => S754_zero s
  | Zpos p => S754_finite s p 0
  | Zneg p => S754_finite s p 0
  end.

(** [float(z)]: conversion with round-half-even. *)
Definition float_of_int (z : Z) : float := binary_normalize prec emax z 0 false.

(** [a / b] on two [int]s: the correctly rounded quotient. *)
Definition int_truediv (a b : Z) : result float :=
  if b =? 0 then Raise ZeroDivisionError
  else Ok (SFdiv prec emax (signed_int (a <? 0) a) (signed_int (b <? 0) b)).

(** [x / n] on a [float] and an [int]: [n] is converted first. *)
Definition float_truediv (x : float) (n : Z) : result float :=
  if n =? 0 then Raise ZeroDivisionError
  else Ok (SFdiv prec emax x (float_of_int n)).

Definition round_half_even (num den : Z) : Z :=
  let q := num / den in
  match (2 * (num mod den)) ?= den with
  | Lt => q
  | Gt => q + 1
  | Eq => if Z.even q then q else q + 1
  end.

(** The number of tenths nearest to [m * 2^e], ties to even, taken on
    the exact binary value. *)
Definition tenths (m : positive) (e : Z) : Z :=
  if 0 <=? e then 10 * Zpos m * 2 ^ e
  else round_half_even (10 * Zpos m) (2 ^ (- e)).

(** The double nearest to [n / 10], with sign [s]: what reading the
    decimal text of [n] tenths gives. *)
Definition float_of_tenths (s : bool) (n : Z) : float :=
  SFdiv prec emax (signed_int s n) (S754_finite false 10 0).

(** [round(x, 1)] on a float: the decimal with one digit nearest to the
    exact value of [x], converted back to the nearest double.  Zeros,
    infinities and NaN are returned unchanged. *)
Definition round1 (x : float) : float :=
  match x with
  | S754_finite s m e => float_of_tenths s (tenths m e)
  | _ => x
  end.

(** A Python number that is an [int] or a [float]: the summary holds
    the int [0] on some paths and a float on others. *)
Inductive num : Type :=
| NInt (z : Z)
| NFloat (x : float).

(** [round(v, 1)]: an [int] is returned as it is. *)
Definition round_num (v : num) : num :=
  match v with
  | NInt z => NInt z
  | NFloat x => NFloat (round1 x)
  end.

(** [<] on floats. *)
Definition float_lt (x y : float) : bool := SFltb x y.

(* ================================================================= *)
(** ** [sorted], [max] and slices *)

Section Sorting.
Context {A K : Type}.
Variable lt : K -> K -> bool.
Variable key : A -> K.

(** [x] precedes every element of [l] in the input: it is placed
    before the first element that is not smaller than it. *)
Fixpoint insert_stable (x : A) (l : list A) : list A :=
  match l with
  | [] => [x]
  | y :: l' =>
      if lt (key y) (key x) then y :: insert_stable x l' else x :: y :: l'
  end.

Fixpoint stable_sort (l : list A) : list A :=
  match l with
  | [] => []
  | x :: l' => insert_stable x (stable_sort l')
  end.

(** [sorted(l, key=key, reverse=reverse)].  Python's sort is stable
    and compares keys with [<] only; with [reverse=True] the list is
    reversed, sorted and reversed again, which keeps equal keys in
    input order. *)
Definition py_sorted (reverse : bool) (l : list A) : list A :=
  if reverse then rev (stable_sort (rev l)) else stable_sort l.

(** The scan of [max(l, key=key)]: a later item replaces the current
    maximum only when it is strictly greater. *)
Fixpoint max_from (best : A) (l : list A) : A :=
  match l with
  | [] => best
  | x :: l' => if lt (key best) (key x) then max_from x l' else max_from best l'
  end.

Definition py_max (l : list A) : result A :=
  match l with
  | [] => Raise ValueError
  | x :: l' => Ok (max_from x l')
  end.

(** [a] may stand before [b] in an ascending list: [b] is not smaller. *)
Definition not_after (a b : A) : Prop := lt (key b) (key a) = false.

(** [a] may stand before [b] in a descending list: [a] is not smaller. *)
Definition not_before (a b : A) : Prop := lt (key a) (key b) = false.
End Sorting.

(** [l[:n]]: the first [n] items, and for a negative [n] all but the
    last [-n]. *)
Definition slice_to {A : Type} (n : Z) (l : list A) : list A :=
  if n <? 0 then firstn (List.length l - Z.to_nat (- n)) l
  else firstn (Z.to_nat n) l.

(** [len(l)] as a Python int. *)
Definition len {A : Type} (l : list A) : Z := Z.of_nat (List.length l).

(* ================================================================= *)
(** ** Dates *)

(** The local time zone of the process: [localtime] takes seconds
    since the epoch to wall-clock seconds (the naive datetime of
    [datetime.fromtimestamp]), [mktime] takes wall-clock seconds back
    (the [timestamp()] of a naive datetime). *)
Record tzinfo : Type := {
  localtime : Z -> Z;
  mktime : Z -> Z
}.

Definition utc : tzinfo := {| localtime := fun t => t; mktime := fun w => w |}.

Definition seconds_per_day : Z := 86400.

(** Year, month and day of a count of days since 1970-01-01 in the
    proleptic Gregorian calendar. *)
Definition civil_from_days (days : Z) : Z * Z * Z :=
  let z := days + 719468 in
  let era := z / 146097 in
  let doe := z mod 146097 in
  let yoe := (doe - doe / 1460 + doe / 36524 - doe / 146096) / 365 in
  let doy := doe - (365 * yoe + yoe / 4 - yoe / 100) in
  let mp := (5 * doy + 2) / 153 in
  let d := doy - (153 * mp + 2) / 5 + 1 in
  let m := if mp <? 10 then mp + 3 else mp - 9 in
  let y := yoe + era * 400 + (if m <=? 2 then 1 else 0) in
  (y, m, d).

Definition month_abbr (m : Z) : string :=
  match m with
  | 1 => "Jan" | 2 => "Feb" | 3 => "Mar" | 4 => "Apr"
  | 5 => "May" | 6 => "Jun" | 7 => "Jul" | 8 => "Aug"
  | 9 => "Sep" | 10 => "Oct" | 11 => "Nov" | _ => "Dec"
  end%string.

Definition decimal (n : Z) : string :=
  NilZero.string_of_uint (N.to_uint (Z.to_N n)).

Definition two_digits (n : Z) : string :=
  if n <? 10 then ("0" ++ decimal n)%string else decimal n.

(** [strftime("%b %d, %Y")] of a naive datetime given in wall-clock
    seconds, in the C locale. *)
Definition strftime_b_d_Y (wall : Z) : string :=
  let '(y, m, d) := civil_from_days (wall / seconds_per_day) in
  (month_abbr m ++ " " ++ two_digits d ++ ", " ++ decimal y)%string.

(** [(a - b).days] for two naive datetimes: timedelta days round down. *)
Definition timedelta_days (a b : Z) : Z := (a - b) / seconds_per_day.

(** [sum(l)] on ints: left to right from [0]. *)
Definition py_sum (l : list Z) : Z := fold_left Z.add l 0.

(** [str.lower()] and [a in b] on ASCII strings. *)
Definition lower_ascii (c : ascii) : ascii :=
  let n := N_of_ascii c in
  if ((65 <=? n) && (n <=? 90))%N then ascii_of_N (n + 32) else c.

Fixpoint lower (s : string) : string :=
  match s with
  | EmptyString => EmptyString
  | String c s' => String (lower_ascii c) (lower s')
  end.

Fixpoint contains (needle hay : string) : bool :=
  String.prefix needle hay
  || match hay with
     | EmptyString => false
     | String _ hay' => contains needle hay'
     end.

(* ================================================================= *)
(** ** The payload and the views *)

(** One entry of the owned-games response: a dict in which every key
    may be absent. *)
Record game : Type := {
  name : option string;
  appid : option Z;
  playtime_forever : option Z;
  rtime_last_played : option Z
}.

(** The dict the analyzer is built from: both keys may be absent. *)
Record payload : Type := {
  payload_games : option (list game);
  payload_game_count : option Z
}.

(** The dict a query puts in its result list; [days_since_played] is
    present in the entries of the neglected view only. *)
Record game_view : Type := {
  view_name : string;
  view_appid : Z;
  view_playtime_hours : float;
  view_last_played : string;
  view_days_since_played : option Z
}.

Record most_played_entry : Type := {
  mp_name : string;
  mp_playtime_hours : float
}.

Record summary : Type := {
  total_games : Z;
  total_playtime : num;
  most_played_game : option most_played_entry;
  unplayed_count : Z;
  played_count : Z;
  average_playtime : num
}.

(* ================================================================= *)
(** ** [class GameDataAnalyzer] *)

Module GameDataAnalyzer.

Record t : Type := {
  game_data : payload;
  games : list game;
  game_count : Z
}.

Definition __init__ (gd : payload) : t :=
  {| game_data := gd;
     games := dict_get (payload_games gd) [];
     game_count := dict_get (payload_game_count gd) 0 |}.

Definition _minutes_to_hours (minutes : Z) : result float :=
  x <- int_truediv minutes 60 ;; Ok (round1 x).

Definition _format_timestamp (tz : tzinfo) (timestamp : Z) : string :=
  if timestamp =? 0 then "Never"%string
  else strftime_b_d_Y (localtime tz timestamp).

Definition get_total_playtime (self : t) : result float :=
  let total_minutes :=
    py_sum (map (fun g => dict_get (playtime_forever g) 0) (games self)) in
  _minutes_to_hours total_minutes.

(** The four-key dict built for one game, the same in every listing. *)
Definition game_entry (tz : tzinfo) (g : game) : result game_view :=
  hours <- _minutes_to_hours (dict_get (playtime_forever g) 0) ;;
  Ok {| view_name := dict_get (name g) "Unknown Game"%string;
        view_appid := dict_get (appid g) 0;
        view_playtime_hours := hours;
        view_last_played := _format_timestamp tz (dict_get (rtime_last_played g) 0);
        view_days_since_played := None |}.

Definition get_most_played_games (tz : tzinfo) (self : t) (limit : Z)
  : result (list game_view) :=
  let sorted_games :=
    py_sorted Z.ltb (fun x => dict_get (playtime_forever x) 0) true (games self) in
  for_append (fun _ => true) (game_entry tz) [] (slice_to limit sorted_games).

Definition get_unplayed_games (tz : tzinfo) (self : t) : result (list game_view) :=
  for_append (fun g => dict_get (playtime_forever g) 0 <? 60)
             (game_entry tz) [] (games self).

(** [int((datetime.now() - timedelta(days=days)).timestamp())], with
    the clock reading [now] in seconds since the epoch. *)
Definition cutoff_timestamp (tz : tzinfo) (now days : Z) : Z :=
  mktime tz (localtime tz now - days * seconds_per_day).

Definition get_recently_played_games (tz : tzinfo) (now : Z) (self : t) (days : Z)
  : result (list game_view) :=
  let cutoff := cutoff_timestamp tz now days in
  recent_games <-
    for_append (fun g => cutoff <? dict_get (rtime_last_played g) 0)
               (game_entry tz) [] (games self) ;;
  Ok (py_sorted String.ltb view_last_played true recent_games).

Definition neglected_entry (tz : tzinfo) (now : Z) (g : game) : result game_view :=
  let last_played := dict_get (rtime_last_played g) 0 in
  let playtime := dict_get (playtime_forever g) 0 in
  hours <- _minutes_to_hours playtime ;;
  Ok {| view_name := dict_get (name g) "Unknown Game"%string;
        view_appid := dict_get (appid g) 0;
        view_playtime_hours := hours;
        view_last_played := _format_timestamp tz last_played;
        view_days_since_played :=
          Some (timedelta_days (localtime tz now) (localtime tz last_played)) |}.

Definition neglected_condition (cutoff : Z) (g : game) : bool :=
  let last_played := dict_get (rtime_last_played g) 0 in
  let playtime := dict_get (playtime_forever g) 0 in
  (120 <=? playtime) && (0 <? last_played) && (last_played <? cutoff).

Definition get_neglected_games (tz : tzinfo) (now : Z) (self : t) (days : Z)
  : result (list game_view) :=
  let cutoff := cutoff_timestamp tz now days in
  neglected_games <-
    for_append (neglected_condition cutoff) (neglected_entry tz now) []
               (games self) ;;
  Ok (py_sorted float_lt view_playtime_hours true neglected_games).

Definition get_library_summary (self : t) : result summary :=
  match games self with
  | [] =>
      Ok {| total_games := 0;
            total_playtime := NInt 0;
            most_played_game := None;
            unplayed_count := 0;
            played_count := 0;
            average_playtime := NInt 0 |}
  | _ :: _ =>
      most_played <-
        py_max Z.ltb (fun x => dict_get (playtime_forever x) 0) (games self) ;;
      let unplayed_count :=
        py_sum (map (fun _ => 1)
                    (filter (fun g => dict_get (playtime_forever g) 0 <? 60)
                            (games self))) in
      let played_count := game_count self - unplayed_count in
      total_playtime <- get_total_playtime self ;;
      average_playtime <-
        (if 0 <? played_count
         then x <- float_truediv total_playtime played_count ;; Ok (NFloat x)
         else Ok (NInt 0)) ;;
      most_played_hours <-
        _minutes_to_hours (dict_get (playtime_forever most_played) 0) ;;
      Ok {| total_games := game_count self;
            total_playtime := NFloat total_playtime;
            most_played_game :=
              Some {| mp_name := dict_get (name most_played) "Unknown Game"%string;
                      mp_playtime_hours := most_played_hours |};
            unplayed_count := unplayed_count;
            played_count := played_count;
            average_playtime := round_num average_playtime |}
  end.

End GameDataAnalyzer.

(* ================================================================= *)
(** ** Tool arguments and results *)

(** A numeric tool argument as the caller supplies it: an [int], or a
    value on which [int()] raises [ValueError] or [TypeError] (a word,
    [None], a list). *)
Inductive py_arg : Type :=
| ArgInt (n : Z)
| ArgNonNumeric.

Definition py_int (a : py_arg) : result Z :=
  match a with
  | ArgInt n => Ok n
  | ArgNonNumeric => Raise ValueError
  end.

(** The guard every numeric tool argument goes through:
    [try: n = int(n); if n <= 0: n = default]
    [except (ValueError, TypeError): n = default]. *)
Definition coerce_positive (a : py_arg) (default : Z) : result Z :=
  match py_int a with
  | Ok n => Ok (if n <=? 0 then default else n)
  | Raise ValueError => Ok default
  | Raise TypeError => Ok default
  | Raise e => Raise e
  end.

(** What the store API returns. *)
Record player_info : Type := { personaname : option string }.

Record owned_games : Type := {
  owned_game_count : Z;
  owned_games_list : list game
}.

Record game_details : Type := {
  details_name : string;
  details_short_description : string
}.

Record search_hit : Type := {
  hit_appid : Z;
  hit_name : string;
  hit_type : string
}.

Record review : Type := {
  review_text : string;
  review_voted_up : bool
}.

(** [class SteamAPIHandler], seen from the agent: each request either
    returns or raises. *)
Record SteamAPIHandler : Type := {
  validate_steam_id : string -> result (string * bool);
  get_owned_games : string -> result owned_games;
  get_player_summaries : string -> result player_info;
  get_game_details : Z -> result game_details;
  get_game_reviews : Z -> py_arg -> result (list review);
  search_game : string -> result (option search_hit)
}.

(** The dicts the tools return, one constructor for each shape. *)
Inductive tool_result : Type :=
| ErrorDict (error : string)
| GameCountDict (total played unplayed : Z)
| PlaytimeDict (total_hours average_hours_per_game : num)
| GamesDict (games : list game_view) (count : Z)
| PageDict (games : list game_view) (total_count showing : Z)
| WindowDict (games : list game_view) (total_count showing days : Z)
| SummaryDict (s : summary)
| StatsDict (v : game_view)
| MatchesDict (matches : list game_view) (count : Z)
| NotFoundDict (error : string)
| InfoDict (details : game_details) (owned : bool)
           (playtime_hours : option float) (last_played : option string)
| BasicInfoDict (error : string) (basic_info : game_view)
| ReviewsDict (game_name : string) (owned : bool)
              (review_count positive_count negative_count : Z)
              (reviews : list string)
| ReviewsErrorDict (error : string) (game_name : string).

Definition no_data : tool_result := ErrorDict "No game data loaded".

(* ================================================================= *)
(** ** [class SteamStatsAgent] *)

Module SteamStatsAgent.

Record library : Type := {
  lib_steam_id : string;
  lib_player_info : player_info;
  lib_game_data : owned_games
}.

Record analysis : Type := {
  an_steam_id : string;
  an_player_info : player_info;
  an_summary : summary;
  an_most_played : list game_view;
  an_unplayed : list game_view;
  an_recently_played : list game_view;
  an_neglected : list game_view
}.

Record t : Type := {
  steam_api : SteamAPIHandler;
  library_data : option library;
  analysis_data : option analysis;
  game_analyzer : option GameDataAnalyzer.t
}.

(** The agent as [__init__] leaves it: nothing loaded. *)
Definition __init__ (api : SteamAPIHandler) : t :=
  {| steam_api := api;
     library_data := None;
     analysis_data := None;
     game_analyzer := None |}.

(** The dict [get_owned_games] returns, as the analyzer reads it. *)
Definition as_payload (gd : owned_games) : payload :=
  {| payload_games := Some (owned_games_list gd);
     payload_game_count := Some (owned_game_count gd) |}.

(** What [load_user_data] returns: the success dict, or the failure
    dict for the exception its [except] caught. *)
Inductive load_status : Type :=
| Loaded (player_name : string) (game_count : Z)
| LoadFailed (error : exn).

(** The body of the [try] of [load_user_data]: the attributes are
    assigned in the order of the source, so a failure leaves the
    ones assigned before it. *)
Definition load_user_data (tz : tzinfo) (now : Z) (self : t) (steam_id_or_vanity : string)
  : t * load_status :=
  match validate_steam_id (steam_api self) steam_id_or_vanity with
  | Raise e => (self, LoadFailed e)
  | Ok (steam_id, _) =>
  match get_owned_games (steam_api self) steam_id with
  | Raise e => (self, LoadFailed e)
  | Ok gd =>
  match get_player_summaries (steam_api self) steam_id with
  | Raise e => (self, LoadFailed e)
  | Ok info =>
      let lib := {| lib_steam_id := steam_id;
                    lib_player_info := info;
                    lib_game_data := gd |} in
      let analyzer := GameDataAnalyzer.__init__ (as_payload gd) in
      let self1 := {| steam_api := steam_api self;
                      library_data := Some lib;
                      analysis_data := analysis_data self;
                      game_analyzer := Some analyzer |} in
      let computed :=
        s <- GameDataAnalyzer.get_library_summary analyzer ;;
        mp <- GameDataAnalyzer.get_most_played_games tz analyzer 10 ;;
        un <- GameDataAnalyzer.get_unplayed_games tz analyzer ;;
        rp <- GameDataAnalyzer.get_recently_played_games tz now analyzer 30 ;;
        ng <- GameDataAnalyzer.get_neglected_games tz now analyzer 365 ;;
        Ok {| an_steam_id := steam_id;
              an_player_info := info;
              an_summary := s;
              an_most_played := mp;
              an_unplayed := un;
              an_recently_played := rp;
              an_neglected := ng |} in
      match computed with
      | Raise e => (self1, LoadFailed e)
      | Ok a =>
          ({| steam_api := steam_api self;
              library_data := Some lib;
              analysis_data := Some a;
              game_analyzer := Some analyzer |},
           Loaded (dict_get (personaname info) "Unknown Player"%string)
                  (owned_game_count gd))
      end
  end end end.

(** [self.game_analyzer._minutes_to_hours(...)]: the attribute access
    fails on [None]. *)
Definition analyzer_hours (self : t) (minutes : Z) : result float :=
  match game_analyzer self with
  | None => Raise AttributeError
  | Some _ => GameDataAnalyzer._minutes_to_hours minutes
  end.

Definition analyzer_format (tz : tzinfo) (self : t) (timestamp : Z) : result string :=
  match game_analyzer self with
  | None => Raise AttributeError
  | Some _ => Ok (GameDataAnalyzer._format_timestamp tz timestamp)
  end.

(** The four-key dict the agent builds itself from a library entry. *)
Definition game_entry (tz : tzinfo) (self : t) (g : game) : result game_view :=
  hours <- analyzer_hours self (dict_get (playtime_forever g) 0) ;;
  last <- analyzer_format tz self (dict_get (rtime_last_played g) 0) ;;
  Ok {| view_name := dict_get (name g) "Unknown Game"%string;
        view_appid := dict_get (appid g) 0;
        view_playtime_hours := hours;
        view_last_played := last;
        view_days_since_played := None |}.

Definition get_total_game_count (self : t) : result tool_result :=
  match analysis_data self with
  | None => Ok no_data
  | Some a =>
      let s := an_summary a in
      Ok (GameCountDict (total_games s) (played_count s) (unplayed_count s))
  end.

Definition get_total_playtime (self : t) : result tool_result :=
  match analysis_data self with
  | None => Ok no_data
  | Some a =>
      let s := an_summary a in
      Ok (PlaytimeDict (total_playtime s) (average_playtime s))
  end.

Definition get_most_played_games (tz : tzinfo) (self : t) (top_n : py_arg)
  : result tool_result :=
  match game_analyzer self with
  | None => Ok no_data
  | Some analyzer =>
      top_n <- coerce_positive top_n 5 ;;
      most_played <- GameDataAnalyzer.get_most_played_games tz analyzer top_n ;;
      Ok (GamesDict most_played (len most_played))
  end.

Definition get_least_played_games (tz : tzinfo) (self : t) (top_n : py_arg)
  : result tool_result :=
  match game_analyzer self, library_data self with
  | Some _, Some lib =>
      top_n <- coerce_positive top_n 5 ;;
      let played_games :=
        filter (fun g => 0 <? dict_get (playtime_forever g) 0)
               (owned_games_list (lib_game_data lib)) in
      let sorted_games :=
        py_sorted Z.ltb (fun x => dict_get (playtime_forever x) 0) false played_games in
      least_played <-
        for_append (fun _ => true) (game_entry tz self) []
                   (slice_to top_n sorted_games) ;;
      Ok (GamesDict least_played (len least_played))
  | _, _ => Ok no_data
  end.

Definition list_unplayed_games (self : t) (limit : py_arg) : result tool_result :=
  match analysis_data self with
  | None => Ok no_data
  | Some a =>
      limit <- coerce_positive limit 10 ;;
      let unplayed := an_unplayed a in
      Ok (PageDict (slice_to limit unplayed) (len unplayed)
                   (Z.min limit (len unplayed)))
  end.

Definition find_game_stats (tz : tzinfo) (self : t) (game_name : string)
  : result tool_result :=
  match game_analyzer self, library_data self with
  | Some _, Some lib =>
      if String.eqb game_name ""
      then Ok (ErrorDict "No game name provided")
      else
        let all := owned_games_list (lib_game_data lib) in
        match find (fun g => String.eqb (lower (dict_get (name g) ""%string))
                                        (lower game_name)) all with
        | Some g => v <- game_entry tz self g ;; Ok (StatsDict v)
        | None =>
            matches <-
              for_append (fun g => contains (lower game_name)
                                            (lower (dict_get (name g) ""%string)))
                         (game_entry tz self) [] all ;;
            match matches with
            | _ :: _ => Ok (MatchesDict matches (len matches))
            | [] =>
                Ok (NotFoundDict
                      ("Game '" ++ game_name ++ "' not found in your library"))
            end
        end
  | _, _ => Ok no_data
  end.

Definition get_recently_played_games (tz : tzinfo) (now : Z) (self : t)
           (days limit : py_arg) : result tool_result :=
  match game_analyzer self with
  | None => Ok no_data
  | Some analyzer =>
      days <- coerce_positive days 30 ;;
      limit <- coerce_positive limit 5 ;;
      recent_games <-
        GameDataAnalyzer.get_recently_played_games tz now analyzer days ;;
      Ok (WindowDict (slice_to limit recent_games) (len recent_games)
                     (Z.min limit (len recent_games)) days)
  end.

Definition get_neglected_games (tz : tzinfo) (now : Z) (self : t)
           (days limit : py_arg) : result tool_result :=
  match game_analyzer self with
  | None => Ok no_data
  | Some analyzer =>
      days <- coerce_positive days 365 ;;
      limit <- coerce_positive limit 5 ;;
      neglected_games <-
        GameDataAnalyzer.get_neglected_games tz now analyzer days ;;
      Ok (WindowDict (slice_to limit neglected_games) (len neglected_games)
                     (Z.min limit (len neglected_games)) days)
  end.

Definition get_library_summary (self : t) : result tool_result :=
  match analysis_data self with
  | None => Ok no_data
  | Some a => Ok (SummaryDict (an_summary a))
  end.

(** The library entry whose lower-cased name equals the lower-cased
    [game_name]; [None] when nothing is loaded. *)
Definition lookup_owned (self : t) (game_name : string) : option game :=
  match library_data self with
  | None => None
  | Some lib =>
      find (fun g => String.eqb (lower (dict_get (name g) ""%string))
                                (lower game_name))
           (owned_games_list (lib_game_data lib))
  end.

(** Truth value of a dict: false exactly when it has no key. *)
Definition dict_truthy (g : game) : bool :=
  match name g, appid g, playtime_forever g, rtime_last_played g with
  | None, None, None, None => false
  | _, _, _, _ => true
  end.

Definition get_game_info (tz : tzinfo) (self : t) (game_name : string)
  : result tool_result :=
  let owned_game :=
    match lookup_owned self game_name with
    | Some g => if dict_truthy g then Some g else None
    | None => None
    end in
  let attempt : result tool_result :=
    match owned_game with
    | Some g =>
        id <- dict_index "appid" (appid g) ;;
        details <- get_game_details (steam_api self) id ;;
        hours <- analyzer_hours self (dict_get (playtime_forever g) 0) ;;
        last <- analyzer_format tz self (dict_get (rtime_last_played g) 0) ;;
        Ok (InfoDict details true (Some hours) (Some last))
    | None =>
        search_result <- search_game (steam_api self) game_name ;;
        match search_result with
        | None =>
            Ok (ErrorDict ("Could not find game '" ++ game_name ++ "' on Steam"))
        | Some hit =>
            details <- get_game_details (steam_api self) (hit_appid hit) ;;
            Ok (InfoDict details false None None)
        end
    end in
  match attempt with
  | Ok r => Ok r
  | Raise _ =>
      match owned_game with
      | Some g =>
          v <- game_entry tz self g ;;
          Ok (BasicInfoDict "Could not fetch detailed game information" v)
      | None =>
          Ok (ErrorDict ("Could not find or fetch information for game '"
                           ++ game_name ++ "'"))
      end
  end.

Definition hit_as_dict (h : search_hit) : game :=
  {| name := Some (hit_name h);
     appid := Some (hit_appid h);
     playtime_forever := None;
     rtime_last_played := None |}.

(** The part of [summarize_player_reviews] that runs once
    [game_data] is a non-empty dict; the handler reads
    [game_data["name"]] again. *)
Definition review_summary (self : t) (game_data : game) (num_reviews : py_arg)
  : result tool_result :=
  let attempt : result tool_result :=
    id <- dict_index "appid" (appid game_data) ;;
    reviews <- get_game_reviews (steam_api self) id num_reviews ;;
    let positive_count :=
      py_sum (map (fun _ => 1) (filter review_voted_up reviews)) in
    shown <- dict_index "name" (name game_data) ;;
    Ok (ReviewsDict shown
                    (match appid game_data with Some _ => true | None => false end)
                    (len reviews) positive_count
                    (len reviews - positive_count)
                    (map review_text reviews)) in
  match attempt with
  | Ok r => Ok r
  | Raise _ =>
      shown <- dict_index "name" (name game_data) ;;
      Ok (ReviewsErrorDict "Could not fetch review information" shown)
  end.

Definition summarize_player_reviews (self : t) (game_name : string)
           (num_reviews : py_arg) : result tool_result :=
  let found :=
    match lookup_owned self game_name with
    | Some g => if dict_truthy g then Some g else None
    | None => None
    end in
  match found with
  | Some g => review_summary self g num_reviews
  | None =>
      match search_game (steam_api self) game_name with
      | Raise _ =>
          Ok (ReviewsErrorDict "Could not fetch review information" game_name)
      | Ok None =>
          Ok (ErrorDict ("Could not find game '" ++ game_name ++ "' on Steam"))
      | Ok (Some hit) => review_summary self (hit_as_dict hit) num_reviews
      end
  end.

(** The tools registered with the agent, and a call of one of them. *)
Inductive tool_call : Type :=
| call_get_total_game_count
| call_get_total_playtime
| call_get_most_played_games (top_n : py_arg)
| call_get_least_played_games (top_n : py_arg)
| call_list_unplayed_games (limit : py_arg)
| call_find_game_stats (game_name : string)
| call_get_recently_played_games (days limit : py_arg)
| call_get_neglected_games (days limit : py_arg)
| call_get_library_summary
| call_get_game_info (game_name : string)
| call_summarize_player_reviews (game_name : string) (num_reviews : py_arg).

Definition invoke (tz : tzinfo) (now : Z) (self : t) (c : tool_call)
  : result tool_result :=
  match c with
  | call_get_total_game_count => get_total_game_count self
  | call_get_total_playtime => get_total_playtime self
  | call_get_most_played_games top_n => get_most_played_games tz self top_n
  | call_get_least_played_games top_n => get_least_played_games tz self top_n
  | call_list_unplayed_games limit => list_unplayed_games self limit
  | call_find_game_stats game_name => find_game_stats tz self game_name
  | call_get_recently_played_games days limit =>
      get_recently_played_games tz now self days limit
  | call_get_neglected_games days limit =>
      get_neglected_games tz now self days limit
  | call_get_library_summary => get_library_summary self
  | call_get_game_info game_name => get_game_info tz self game_name
  | call_summarize_player_reviews game_name num_reviews =>
      summarize_player_reviews self game_name num_reviews
  end.

End SteamStatsAgent.

(* ================================================================= *)
(** ** The analyzer's query operations, as one family *)






(* ================================================================= *)
(** ** Vocabulary of the specification *)

(** The fields of a record after defaulting. *)
Definition playtime_minutes_total (g : game) : Z := dict_get (playtime_forever g) 0.
Definition last_played_epoch (g : game) : Z := dict_get (rtime_last_played g) 0.
Definition display_name (g : game) : string := dict_get (name g) "Unknown Game"%string.
Definition app_id (g : game) : Z := dict_get (appid g) 0.

(** [minutes / 60] as a double, rounded to one decimal. *)
Definition hours_of (minutes : Z) : float :=
  round1 (SFdiv prec emax (signed_int (minutes <? 0) minutes) (S754_finite false 60 0)).

(** The view of a record in a listing. *)
Definition entry_of (tz : tzinfo) (g : game) : game_view :=
  {| view_name := display_name g;
     view_appid := app_id g;
     view_playtime_hours := hours_of (playtime_minutes_total g);
     view_last_played :=
       GameDataAnalyzer._format_timestamp tz (last_played_epoch g);
     view_days_since_played := None |}.

(** The view of a record in the neglected listing. *)
Definition neglected_entry_of (tz : tzinfo) (now : Z) (g : game) : game_view :=
  {| view_name := display_name g;
     view_appid := app_id g;
     view_playtime_hours := hours_of (playtime_minutes_total g);
     view_last_played :=
       GameDataAnalyzer._format_timestamp tz (last_played_epoch g);
     view_days_since_played :=
       Some ((localtime tz now - localtime tz (last_played_epoch g)) / 86400) |}.



Definition empty_summary : summary :=
  {| total_games := 0;
     total_playtime := NInt 0;
     most_played_game := None;
     unplayed_count := 0;
     played_count := 0;
     average_playtime := NInt 0 |}.

(** The tools that answer from the loaded library. *)
Definition library_tool (c : SteamStatsAgent.tool_call) : bool :=
  match c with
  | SteamStatsAgent.call_get_game_info _
  | SteamStatsAgent.call_summarize_player_reviews _ _ => false
  | _ => true
  end.


(** The limit a tool works with after its guard: a positive [int] is
    kept, anything else becomes [default]. *)
Definition effective_limit (a : py_arg) (default : Z) : Z :=
  match a with
  | ArgInt n => if 0 <? n then n else default
  | ArgNonNumeric => default
  end.

(* ================================================================= *)
(** ** [class SteamStatsAgent]: choosing the model *)

(** The methods that create the conversational agent read and assign
    the attribute [self.agent] only; they are given that attribute and
    return its new value with their result. *)

(** The response of [list_foundation_models()]: dicts whose keys may
    be absent. *)
Record model_lifecycle : Type := { status : option string }.

Record model_summary : Type := {
  modelId : option string;
  modelLifecycle : option model_lifecycle
}.

Record foundation_models : Type := {
  modelSummaries : option (list model_summary)
}.

(** The agent object: the model it was built with. *)
Record strands_agent : Type := {
  agent_model_id : option string;
  agent_region_name : string
}.

(** [==] between two values that are a string or [None]. *)
Definition id_eqb (a b : option string) : bool :=
  match a, b with
  | Some x, Some y => String.eqb x y
  | None, None => true
  | _, _ => false
  end.

(** Truth value of a string or [None]: false for [None] and for [""]. *)
Definition id_truthy (a : option string) : bool :=
  match a with
  | Some s => negb (String.eqb s "")
  | None => false
  end.

Module ModelSetup.

Definition preferred_models : list string :=
  ["amazon.nova-pro-v1:0"; "amazon.nova-pro-v1:0:24k"; "amazon.nova-pro-v1:0:300k"]%string.

Definition default_model : string := "anthropic.claude-3-sonnet-20240229-v1:0".

(** [model.get('modelLifecycle', {}).get('status') == 'ACTIVE']. *)
Definition is_active (model : model_summary) : bool :=
  id_eqb (match modelLifecycle model with
          | Some lifecycle => status lifecycle
          | None => None
          end)
         (Some "ACTIVE"%string).

(** [bedrock] is what the request returned or raised; any exception
    gives the empty list. *)
Definition check_available_models (bedrock : result foundation_models)
  : list (option string) :=
  let attempt :=
    response <- bedrock ;;
    for_append is_active (fun model => Ok (modelId model)) []
               (dict_get (modelSummaries response) []) in
  match attempt with
  | Ok available_models => available_models
  | Raise _ => []
  end.

Definition initialize_agent_with_model_id (agent : option strands_agent)
           (model_id : option string) : option strands_agent * strands_agent :=
  match agent with
  | Some a => (Some a, a)
  | None =>
      let a := {| agent_model_id := model_id; agent_region_name := "us-east-1" |} in
      (Some a, a)
  end.

(** [for preferred in preferred_models: if preferred in available:
    model_id = preferred; break]. *)
Fixpoint first_preferred (preferred : list string) (available : list (option string))
  : option string :=
  match preferred with
  | [] => None
  | p :: rest =>
      if existsb (fun a => id_eqb a (Some p)) available then Some p
      else first_preferred rest available
  end.

Definition initialize_agent_with_available_model (agent : option strands_agent)
           (bedrock : result foundation_models) : option strands_agent * strands_agent :=
  match agent with
  | Some a => (Some a, a)
  | None =>
      let available_models := check_available_models bedrock in
      let model_id := first_preferred preferred_models available_models in
      let model_id :=
        match available_models with
        | first :: _ => if id_truthy model_id then model_id else first
        | [] => model_id
        end in
      let model_id :=
        if id_truthy model_id then model_id else Some default_model in
      initialize_agent_with_model_id None model_id
  end.

Definition initialize_agent (agent : option strands_agent)
           (bedrock : result foundation_models) : option strands_agent * strands_agent :=
  initialize_agent_with_available_model agent bedrock.

End ModelSetup.

(* ================================================================= *)
(** ** A small library, for the worked examples *)

(** Three records: never played, ten hours played in November 2023,
    half an hour with no last-played time. *)
Definition game_a : game :=
  {| name := Some "A"%string; appid := Some 1;
     playtime_forever := Some 0; rtime_last_played := Some 0 |}.

Definition game_b : game :=
  {| name := Some "B"%string; appid := Some 2;
     playtime_forever := Some 600; rtime_last_played := Some 1700000000 |}.

Definition game_c : game :=
  {| name := Some "C"%string; appid := Some 3;
     playtime_forever := Some 30; rtime_last_played := Some 0 |}.

Definition scenario_owned : owned_games :=
  {| owned_game_count := 3; owned_games_list := [game_a; game_b; game_c] |}.

Definition scenario : GameDataAnalyzer.t :=
  GameDataAnalyzer.__init__ (SteamStatsAgent.as_payload scenario_owned).

(** A store that answers the account requests and finds nothing else. *)
Definition scenario_api : SteamAPIHandler :=
  {| validate_steam_id := fun id => Ok (id, false);
     get_owned_games := fun _ => Ok scenario_owned;
     get_player_summaries := fun _ => Ok {| personaname := Some "player"%string |};
     get_game_details := fun _ => Raise ValueError;
     get_game_reviews := fun _ _ => Raise ValueError;
     search_game := fun _ => Ok None |}.

(** The agent once the library above is loaded, the clock reading
    1700000000 (14 November 2023). *)
Definition scenario_agent : SteamStatsAgent.t :=
  fst (SteamStatsAgent.load_user_data utc 1700000000
         (SteamStatsAgent.__init__ scenario_api) "76561198000000000").

(* ================================================================= *)
(** * Facts about the run-time notions *)

Lemma bind_ok {A B : Type} (a : A) (k : A -> result B) :
  (x <- Ok a ;; k x) = k a.
Proof. reflexivity. Qed.

Section LoopFacts.
Context {A B : Type}.
Variable cond : A -> bool.
Variable body : A -> result B.
Variable f : A -> B.
Hypothesis body_ok : forall x, body x = Ok (f x).

Lemma for_append_total (acc : list B) (l : list A) :
  for_append cond body acc l = Ok (acc ++ map f (filter cond l)).
Proof.
  revert acc; induction l as [|x l IH]; intros acc; simpl.
  - now rewrite app_nil_r.
  - destruct (cond x); simpl.
    + rewrite body_ok; simpl. rewrite IH, <- app_assoc. reflexivity.
    + apply IH.
Qed.
End LoopFacts.

Lemma filter_true {A : Type} (l : list A) : filter (fun _ => true) l = l.
Proof. induction l; simpl; congruence. Qed.

Lemma py_sum_from (l : list Z) (a : Z) : fold_left Z.add l a = a + fold_right Z.add 0 l.
Proof.
  revert a; induction l as [|x l IH]; intros a; simpl.
  - lia.
  - rewrite IH. lia.
Qed.

Lemma py_sum_fold_right (l : list Z) : py_sum l = fold_right Z.add 0 l.
Proof. unfold py_sum. rewrite py_sum_from. lia. Qed.

Lemma py_sum_ones {A : Type} (l : list A) : py_sum (map (fun _ => 1) l) = len l.
Proof.
  rewrite py_sum_fold_right. unfold len.
  induction l as [|x l IH]; cbn [map fold_right List.length].
  - reflexivity.
  - rewrite IH. lia.
Qed.

Section SortFacts.
Context {A K : Type}.
Variable lt : K -> K -> bool.
Variable key : A -> K.

Lemma insert_stable_perm (x : A) (l : list A) :
  Permutation (insert_stable lt key x l) (x :: l).
Proof.
  induction l as [|y l IH]; simpl.
  - apply Permutation_refl.
  - destruct (lt (key y) (key x)).
    + eapply perm_trans; [apply perm_skip, IH | apply perm_swap].
    + apply Permutation_refl.
Qed.

Lemma stable_sort_perm (l : list A) : Permutation (stable_sort lt key l) l.
Proof.
  induction l as [|x l IH]; simpl.
  - constructor.
  - eapply perm_trans; [apply insert_stable_perm | now apply perm_skip].
Qed.

Lemma py_sorted_perm (reverse : bool) (l : list A) :
  Permutation (py_sorted lt key reverse l) l.
Proof.
  unfold py_sorted. destruct reverse.
  - eapply perm_trans; [symmetry; apply Permutation_rev |].
    eapply perm_trans; [apply stable_sort_perm |].
    symmetry; apply Permutation_rev.
  - apply stable_sort_perm.
Qed.

(** Stability: among items none of which is smaller than another,
    the order of the input is kept. *)
Section Stable.
Variable P : A -> bool.
Hypothesis P_ties : forall a b, P a = true -> P b = true -> lt (key a) (key b) = false.

Lemma filter_insert_stable (x : A) (l : list A) :
  filter P (insert_stable lt key x l) = filter P (x :: l).
Proof.
  induction l as [|y l IH]; simpl.
  - reflexivity.
  - destruct (lt (key y) (key x)) eqn:Hyx; simpl.
    + simpl in IH. rewrite IH.
      destruct (P y) eqn:Py; destruct (P x) eqn:Px; try reflexivity.
      rewrite (P_ties y x Py Px) in Hyx. discriminate.
    + reflexivity.
Qed.

Lemma filter_stable_sort (l : list A) :
  filter P (stable_sort lt key l) = filter P l.
Proof.
  induction l as [|x l IH]; simpl.
  - reflexivity.
  - rewrite filter_insert_stable. simpl. now rewrite IH.
Qed.

Lemma filter_rev (l : list A) : filter P (rev l) = rev (filter P l).
Proof.
  induction l as [|x l IH]; simpl.
  - reflexivity.
  - rewrite filter_app, IH. simpl. destruct (P x); simpl.
    + reflexivity.
    + now rewrite app_nil_r.
Qed.

Lemma py_sorted_stable (reverse : bool) (l : list A) :
  filter P (py_sorted lt key reverse l) = filter P l.
Proof.
  unfold py_sorted. destruct reverse.
  - rewrite filter_rev, filter_stable_sort, filter_rev. apply rev_involutive.
  - apply filter_stable_sort.
Qed.
End Stable.

(** Order: on keys among which [lt] is a strict weak order. *)
Section Ordered.
Variable D : K -> Prop.
Hypothesis lt_asym : forall a b, lt a b = true -> lt b a = false.
Hypothesis lt_ntrans :
  forall a b c, D a -> D b -> D c ->
                lt b a = false -> lt c b = false -> lt c a = false.

Lemma insert_stable_sorted (x : A) (l : list A) :
  D (key x) -> Forall (fun a => D (key a)) l ->
  StronglySorted (not_after lt key) l ->
  StronglySorted (not_after lt key) (insert_stable lt key x l).
Proof.
  intros Dx Dl Hs. induction Hs as [|y l Hs IH Hy]; simpl.
  - repeat constructor.
  - inversion Dl as [|? ? Dy Dl']; subst.
    destruct (lt (key y) (key x)) eqn:Hyx.
    + constructor; [now apply IH |].
      eapply Permutation_Forall; [symmetry; apply insert_stable_perm |].
      constructor; [apply lt_asym, Hyx | exact Hy].
    + constructor; [now constructor |].
      constructor; [exact Hyx |].
      rewrite Forall_forall in *. intros z Hz.
      unfold not_after in *. apply (lt_ntrans (key x) (key y) (key z)); auto.
Qed.

Lemma stable_sort_sorted (l : list A) :
  Forall (fun a => D (key a)) l -> StronglySorted (not_after lt key) (stable_sort lt key l).
Proof.
  induction l as [|x l IH]; intros Dl; simpl.
  - constructor.
  - inversion Dl; subst. apply insert_stable_sorted; auto.
    eapply Permutation_Forall; [symmetry; apply stable_sort_perm | assumption].
Qed.

Lemma StronglySorted_app_one (R : A -> A -> Prop) (l : list A) (x : A) :
  StronglySorted R l -> Forall (fun a => R a x) l -> StronglySorted R (l ++ [x]).
Proof.
  induction 1 as [|y l Hs IH Hy]; intros Hx; simpl.
  - repeat constructor.
  - inversion Hx; subst. constructor; [now apply IH |].
    apply Forall_app; split; [exact Hy | now constructor].
Qed.

Lemma StronglySorted_rev (R : A -> A -> Prop) (l : list A) :
  StronglySorted R l -> StronglySorted (fun a b => R b a) (rev l).
Proof.
  induction 1 as [|y l Hs IH Hy]; simpl.
  - constructor.
  - apply StronglySorted_app_one; [exact IH |].
    apply Forall_rev. exact Hy.
Qed.

Lemma py_sorted_ascending (l : list A) :
  Forall (fun a => D (key a)) l ->
  StronglySorted (not_after lt key) (py_sorted lt key false l).
Proof. apply stable_sort_sorted. Qed.

Lemma py_sorted_descending (l : list A) :
  Forall (fun a => D (key a)) l ->
  StronglySorted (not_before lt key) (py_sorted lt key true l).
Proof.
  intros Dl. unfold py_sorted.
  apply (StronglySorted_rev (not_after lt key)).
  apply stable_sort_sorted. now apply Forall_rev.
Qed.
End Ordered.

(** [max]: the first of the greatest items. *)
Section Maximum.
Hypothesis lt_ntrans :
  forall a b c, lt b a = false -> lt c b = false -> lt c a = false.
Hypothesis lt_trans :
  forall a b c, lt a b = true -> lt b c = true -> lt a c = true.

Lemma max_from_scan (pre : list A) (best : A) (mid l : list A) :
  Forall (fun a => lt (key a) (key best) = true) pre ->
  Forall (fun a => lt (key best) (key a) = false) mid ->
  exists before after,
    pre ++ best :: mid ++ l = before ++ max_from lt key best l :: after /\
    Forall (fun a => lt (key a) (key (max_from lt key best l)) = true) before /\
    Forall (fun a => lt (key (max_from lt key best l)) (key a) = false) after.
Proof.
  revert pre best mid. induction l as [|x l IH]; intros pre best mid Hpre Hmid; simpl.
  - exists pre, mid. rewrite app_nil_r. auto.
  - destruct (lt (key best) (key x)) eqn:Hbx.
    + destruct (IH (pre ++ best :: mid) x []) as (before & after & E & Hb & Ha).
      * apply Forall_app; split.
        { eapply Forall_impl; [| exact Hpre]. intros a Ha. simpl in Ha.
          eapply lt_trans; eauto. }
        constructor; [exact Hbx |].
        eapply Forall_impl; [| exact Hmid]. intros a Ha. simpl in Ha.
        destruct (lt (key a) (key x)) eqn:Hax; [reflexivity |].
        rewrite (lt_ntrans _ _ _ Hax Ha) in Hbx. discriminate.
      * constructor.
      * exists before, after. split; [| auto].
        rewrite <- E. simpl. rewrite <- app_assoc. reflexivity.
    + destruct (IH pre best (mid ++ [x])) as (before & after & E & Hb & Ha).
      * exact Hpre.
      * apply Forall_app; split; [exact Hmid | now constructor].
      * exists before, after. split; [| auto].
        rewrite <- E, <- app_assoc. reflexivity.
Qed.

Lemma max_from_first (best : A) (l : list A) :
  exists before after,
    best :: l = before ++ max_from lt key best l :: after /\
    Forall (fun a => lt (key a) (key (max_from lt key best l)) = true) before /\
    Forall (fun a => lt (key (max_from lt key best l)) (key a) = false) after.
Proof. apply (max_from_scan [] best [] l); constructor. Qed.
End Maximum.
End SortFacts.

(* ----------------------------------------------------------------- *)
(** *** The three orders the code sorts by *)

Lemma Z_ltb_asym (a b : Z) : (a <? b) = true -> (b <? a) = false.
Proof. lia. Qed.

Lemma Z_ltb_ntrans (a b c : Z) : (b <? a) = false -> (c <? b) = false -> (c <? a) = false.
Proof. lia. Qed.

Lemma Z_ltb_trans (a b c : Z) : (a <? b) = true -> (b <? c) = true -> (a <? c) = true.
Proof. lia. Qed.






(* ----------------------------------------------------------------- *)
(** *** Rounding never produces NaN *)










(* ----------------------------------------------------------------- *)
(** *** The helpers of the analyzer never raise *)

Lemma minutes_to_hours_total (minutes : Z) :
  GameDataAnalyzer._minutes_to_hours minutes = Ok (hours_of minutes).
Proof. reflexivity. Qed.

Lemma game_entry_total (tz : tzinfo) (g : game) :
  GameDataAnalyzer.game_entry tz g = Ok (entry_of tz g).
Proof. reflexivity. Qed.

Lemma neglected_entry_total (tz : tzinfo) (now : Z) (g : game) :
  GameDataAnalyzer.neglected_entry tz now g = Ok (neglected_entry_of tz now g).
Proof. reflexivity. Qed.

Lemma hours_of_zero : hours_of 0 = S754_zero false.
Proof. reflexivity. Qed.


(* ----------------------------------------------------------------- *)
(** *** Worked values *)

(** [round(m / 60, 1)] at a few minute counts: 630 gives 10.5; 15 and
    45 are exact ties (0.25 and 0.75) and go to the even tenth; 9 and 3
    are not ties in binary (0.15 lies below the tie, 0.05 above it). *)
Example hours_of_values :
  hours_of 630 = float_of_tenths false 105 /\
  hours_of 15 = float_of_tenths false 2 /\
  hours_of 45 = float_of_tenths false 8 /\
  hours_of 9 = float_of_tenths false 1 /\
  hours_of 3 = float_of_tenths false 1 /\
  hours_of (-2) = S754_zero true.
Proof. repeat split. Qed.

(** The three-record library: 10.5 hours in all, two unplayed records,
    one played, 10.5 hours on average, B the most played. *)
Example scenario_summary :
  GameDataAnalyzer.get_library_summary scenario
  = Ok {| total_games := 3;
          total_playtime := NFloat (float_of_tenths false 105);
          most_played_game :=
            Some {| mp_name := "B"; mp_playtime_hours := float_of_tenths false 100 |};
          unplayed_count := 2;
          played_count := 1;
          average_playtime := NFloat (float_of_tenths false 105) |}.
Proof. reflexivity. Qed.

Example scenario_listings :
  GameDataAnalyzer.get_unplayed_games utc scenario
  = Ok [entry_of utc game_a; entry_of utc game_c] /\
  GameDataAnalyzer.get_most_played_games utc scenario 2
  = Ok [entry_of utc game_b; entry_of utc game_c] /\
  view_last_played (entry_of utc game_b) = "Nov 14, 2023"%string.
Proof. repeat split. Qed.

(** The analyzer method itself slices with the limit it is given: the
    guard on the limit is in the agent's tool. *)
Example most_played_raw_limit :
  GameDataAnalyzer.get_most_played_games utc scenario 0 = Ok [] /\
  GameDataAnalyzer.get_most_played_games utc scenario (-1)
  = Ok [entry_of utc game_b; entry_of utc game_c] /\
  SteamStatsAgent.get_most_played_games utc scenario_agent (ArgInt 0)
  = Ok (GamesDict [entry_of utc game_b; entry_of utc game_c; entry_of utc game_a] 3).
Proof. repeat split. Qed.

(* ================================================================= *)
(** * The claims *)

Import GameDataAnalyzer.

Lemma unplayed_listing (tz : tzinfo) (self : GameDataAnalyzer.t) :
  get_unplayed_games tz self
  = Ok (map (entry_of tz)
            (filter (fun g => playtime_minutes_total g <? 60) (games self))).
Proof.
  unfold get_unplayed_games.
  rewrite (for_append_total _ _ (entry_of tz) (game_entry_total tz)).
  reflexivity.
Qed.

(** C7. [unplayed_games()] returns exactly the records with
    [playtime_minutes_total < 60], in their input order: its entries
    are the views of the selected records, a record is selected when
    and only when it is in the snapshot with less than 60 minutes, and
    so none with 60 minutes or more appears. *)
Theorem unplayed_games_exact (tz : tzinfo) (self : GameDataAnalyzer.t) :
  exists selected,
    get_unplayed_games tz self = Ok (map (entry_of tz) selected) /\
    selected = filter (fun g => playtime_minutes_total g <? 60) (games self) /\
    (forall g, In g selected <-> In g (games self) /\ playtime_minutes_total g < 60) /\
    Forall (fun g => ~ 60 <= playtime_minutes_total g) selected.
Proof.
  exists (filter (fun g => playtime_minutes_total g <? 60) (games self)).
  split; [| split; [reflexivity | split]].
  - apply unplayed_listing.
  - intros g. rewrite filter_In, Z.ltb_lt. reflexivity.
  - apply Forall_forall. intros g Hg. apply filter_In in Hg.
    destruct Hg as [_ Hg]. apply Z.ltb_lt in Hg. lia.
Qed.

(** The summary never raises: the average is computed only when the
    played count is positive. *)
Lemma library_summary_total (self : GameDataAnalyzer.t) :
  exists s, get_library_summary self = Ok s.
Proof.
  unfold get_library_summary.
  destruct (games self) as [|g l]; [eexists; reflexivity |].
  cbn [py_max bind]. unfold get_total_playtime.
  rewrite !minutes_to_hours_total. cbn [bind].
  destruct (0 <? _) eqn:Hpc.
  - unfold float_truediv.
    destruct (_ =? 0) eqn:Hz; [lia |]. cbn [bind]. eexists; reflexivity.
  - cbn [bind]. eexists; reflexivity.
Qed.

(** C8. On an empty record list [library_summary()] returns the
    all-zero summary with no most-played game; and on every snapshot it
    returns rather than raises, the average being [0] whenever the
    played count is not positive. *)
Theorem library_summary_empty (self : GameDataAnalyzer.t) :
  (games self = [] -> get_library_summary self = Ok empty_summary) /\
  (exists s,
      get_library_summary self = Ok s /\
      (played_count s <= 0 -> average_playtime s = NInt 0)).
Proof.
  split.
  - intros E. unfold get_library_summary. rewrite E. reflexivity.
  - unfold get_library_summary.
    destruct (games self) as [|g l]; [eexists; split; reflexivity |].
    cbn [py_max bind]. unfold get_total_playtime.
    rewrite !minutes_to_hours_total. cbn [bind].
    destruct (0 <? _) eqn:Hpc.
    + unfold float_truediv.
      destruct (_ =? 0) eqn:Hz; [lia |]. cbn [bind].
      eexists; split; [reflexivity |]. cbn [played_count]. lia.
    + cbn [bind]. eexists; split; reflexivity.
Qed.

Lemma library_summary_empty_witness :
  get_library_summary (__init__ {| payload_games := None; payload_game_count := Some 7 |})
  = Ok empty_summary.
Proof.
  apply (proj1 (library_summary_empty
                  (__init__ {| payload_games := None; payload_game_count := Some 7 |}))).
  reflexivity.
Defined.

(** What the summary holds on a non-empty record list. *)
Lemma library_summary_value (self : GameDataAnalyzer.t) :
  games self <> [] ->
  exists s best before after,
    get_library_summary self = Ok s /\
    total_games s = game_count self /\
    unplayed_count s =
      len (filter (fun g => playtime_minutes_total g <? 60) (games self)) /\
    played_count s = game_count self - unplayed_count s /\
    total_playtime s =
      NFloat (hours_of (fold_right Z.add 0 (map playtime_minutes_total (games self)))) /\
    games self = before ++ best :: after /\
    Forall (fun g => playtime_minutes_total g < playtime_minutes_total best) before /\
    Forall (fun g => playtime_minutes_total g <= playtime_minutes_total best) after /\
    most_played_game s =
      Some {| mp_name := display_name best;
              mp_playtime_hours := hours_of (playtime_minutes_total best) |} /\
    (0 < played_count s ->
     average_playtime s =
       NFloat (round1 (SFdiv prec emax
                             (hours_of (fold_right Z.add 0
                                          (map playtime_minutes_total (games self))))
                             (float_of_int (played_count s))))) /\
    (played_count s <= 0 -> average_playtime s = NInt 0).
Proof.
  intros Hne. unfold get_library_summary.
  destruct (games self) as [|g l] eqn:E; [congruence |]. clear Hne.
  cbn [py_max bind]. unfold get_total_playtime.
  rewrite !minutes_to_hours_total. cbn [bind]. rewrite E.
  destruct (max_from_first Z.ltb (fun x => dict_get (playtime_forever x) 0)
                           Z_ltb_ntrans Z_ltb_trans g l)
    as (before & after & Hsplit & Hb & Ha).
  set (best := max_from Z.ltb (fun x => dict_get (playtime_forever x) 0) g l) in *.
  rewrite py_sum_ones, py_sum_fold_right.
  assert (Hb' : Forall (fun x => playtime_minutes_total x < playtime_minutes_total best)
                       before).
  { eapply Forall_impl; [| exact Hb]. intros x Hx. simpl in Hx.
    unfold playtime_minutes_total. lia. }
  assert (Ha' : Forall (fun x => playtime_minutes_total x <= playtime_minutes_total best)
                       after).
  { eapply Forall_impl; [| exact Ha]. intros x Hx. simpl in Hx.
    unfold playtime_minutes_total. lia. }
  destruct (0 <? _) eqn:Hpc.
  - unfold float_truediv.
    destruct (_ =? 0) eqn:Hz; [lia |]. cbn [bind].
    eexists; exists best, before, after.
    repeat (split; [first [reflexivity | eassumption] |]).
    cbn [played_count unplayed_count]. intros Hc. exfalso. lia.
  - cbn [bind].
    eexists; exists best, before, after.
    repeat (split; [first [reflexivity | eassumption] |]).
    cbn [played_count unplayed_count].
    split; [intros Hc; exfalso; lia | reflexivity].
Qed.

(** C1. On a non-empty record list [library_summary()] returns:
    [total_games] the declared count; [unplayed_count] the number of
    records under 60 minutes; [played_count] their difference;
    [total_playtime] the minutes summed, divided by 60 and rounded to
    one decimal; [most_played_game] the first record of greatest
    playtime, every earlier one being strictly smaller; and
    [average_playtime] the total divided by the played count and
    rounded to one decimal when that count is positive, [0] otherwise. *)
Theorem library_summary_spec (self : GameDataAnalyzer.t) :
  games self <> [] ->
  exists s best before after,
    get_library_summary self = Ok s /\
    total_games s = game_count self /\
    unplayed_count s =
      len (filter (fun g => playtime_minutes_total g <? 60) (games self)) /\
    played_count s = game_count self - unplayed_count s /\
    total_playtime s =
      NFloat (hours_of (fold_right Z.add 0 (map playtime_minutes_total (games self)))) /\
    games self = before ++ best :: after /\
    Forall (fun g => playtime_minutes_total g < playtime_minutes_total best) before /\
    Forall (fun g => playtime_minutes_total g <= playtime_minutes_total best) after /\
    most_played_game s =
      Some {| mp_name := display_name best;
              mp_playtime_hours := hours_of (playtime_minutes_total best) |} /\
    (0 < played_count s ->
     average_playtime s =
       NFloat (round1 (SFdiv prec emax
                             (hours_of (fold_right Z.add 0
                                          (map playtime_minutes_total (games self))))
                             (float_of_int (played_count s))))) /\
    (played_count s <= 0 -> average_playtime s = NInt 0).
Proof. apply library_summary_value. Qed.


(* ----------------------------------------------------------------- *)
(** *** Limits and rankings *)

Lemma slice_to_nonneg {A : Type} (n : Z) (l : list A) :
  0 <= n -> slice_to n l = firstn (Z.to_nat n) l.
Proof.
  intros H. unfold slice_to.
  destruct (Z.ltb_spec n 0) as [E|E]; [exfalso; lia | reflexivity].
Qed.

Lemma coerce_positive_total (a : py_arg) (default : Z) :
  coerce_positive a default = Ok (effective_limit a default).
Proof.
  destruct a as [n|]; unfold coerce_positive, effective_limit, py_int; [| reflexivity].
  destruct (Z.leb_spec n 0), (Z.ltb_spec 0 n); try reflexivity; exfalso; lia.
Qed.

Lemma effective_limit_positive (a : py_arg) (default : Z) :
  0 < default -> 0 < effective_limit a default.
Proof.
  intros H. destruct a as [n|]; unfold effective_limit; [| exact H].
  destruct (Z.ltb_spec 0 n); lia.
Qed.

Lemma In_firstn {A : Type} (n : nat) (l : list A) (x : A) :
  In x (firstn n l) -> In x l.
Proof.
  revert l. induction n as [|n IH]; intros [|y l]; simpl; try tauto.
  intros [H|H]; [now left | right; now apply IH].
Qed.

Lemma len_firstn {A : Type} (n : Z) (l : list A) :
  0 <= n -> len (firstn (Z.to_nat n) l) = Z.min n (len l).
Proof. intros H. unfold len. rewrite length_firstn. lia. Qed.

Lemma len_map {A B : Type} (f : A -> B) (l : list A) : len (map f l) = len l.
Proof. unfold len. now rewrite length_map. Qed.

Lemma StronglySorted_weaken {A : Type} (R S : A -> A -> Prop) (l : list A) :
  (forall a b, R a b -> S a b) -> StronglySorted R l -> StronglySorted S l.
Proof.
  intros HRS. induction 1 as [|x l Hs IH Hx]; constructor; auto.
  eapply Forall_impl; [| exact Hx]. intros b. apply HRS.
Qed.

(** The ranking [sorted(games, key=playtime, reverse=True)]. *)
Lemma most_played_ranking (l : list game) :
  let ranked := py_sorted Z.ltb (fun x => dict_get (playtime_forever x) 0) true l in
  Permutation ranked l /\
  StronglySorted (fun a b => playtime_minutes_total a >= playtime_minutes_total b) ranked /\
  (forall p, filter (fun g => playtime_minutes_total g =? p) ranked
             = filter (fun g => playtime_minutes_total g =? p) l).
Proof.
  split; [apply py_sorted_perm | split].
  - eapply StronglySorted_weaken;
      [| apply (py_sorted_descending Z.ltb _ (fun _ => True) Z_ltb_asym)].
    + intros a b H. unfold not_before in H. unfold playtime_minutes_total. lia.
    + intros a b c _ _ _. apply Z_ltb_ntrans.
    + apply Forall_forall. auto.
  - intros p. apply py_sorted_stable.
    intros a b Ha Hb. unfold playtime_minutes_total in *. lia.
Qed.

(** The ranking [sorted(games, key=playtime)]. *)
Lemma least_played_ranking (l : list game) :
  let ranked := py_sorted Z.ltb (fun x => dict_get (playtime_forever x) 0) false l in
  Permutation ranked l /\
  StronglySorted (fun a b => playtime_minutes_total a <= playtime_minutes_total b) ranked /\
  (forall p, filter (fun g => playtime_minutes_total g =? p) ranked
             = filter (fun g => playtime_minutes_total g =? p) l).
Proof.
  split; [apply py_sorted_perm | split].
  - eapply StronglySorted_weaken;
      [| apply (py_sorted_ascending Z.ltb _ (fun _ => True) Z_ltb_asym)].
    + intros a b H. unfold not_after in H. unfold playtime_minutes_total. lia.
    + intros a b c _ _ _. apply Z_ltb_ntrans.
    + apply Forall_forall. auto.
  - intros p. apply py_sorted_stable.
    intros a b Ha Hb. unfold playtime_minutes_total in *. lia.
Qed.

Lemma most_played_listing (tz : tzinfo) (self : GameDataAnalyzer.t) (limit : Z) :
  get_most_played_games tz self limit =
  Ok (map (entry_of tz)
          (slice_to limit
             (py_sorted Z.ltb (fun x => dict_get (playtime_forever x) 0) true (games self)))).
Proof.
  unfold get_most_played_games.
  rewrite (for_append_total _ _ (entry_of tz) (game_entry_total tz)).
  now rewrite filter_true.
Qed.

Lemma agent_game_entry_total (tz : tzinfo) (self : SteamStatsAgent.t)
      (analyzer : GameDataAnalyzer.t) (g : game) :
  SteamStatsAgent.game_analyzer self = Some analyzer ->
  SteamStatsAgent.game_entry tz self g = Ok (entry_of tz g).
Proof.
  intros E. unfold SteamStatsAgent.game_entry, SteamStatsAgent.analyzer_hours,
    SteamStatsAgent.analyzer_format. rewrite E. reflexivity.
Qed.

(** C2. [most_played(limit)], as the agent offers it: the listing is
    the first [limit] records of the snapshot ranked by descending
    playtime, records of equal playtime keeping their input order; it
    has at most [limit] entries; and the limit is the argument when
    that is a positive int and the default 5 when it is zero, negative
    or not a number, so a non-empty library never yields zero records. *)
Theorem most_played_spec (tz : tzinfo) (self : SteamStatsAgent.t)
        (analyzer : GameDataAnalyzer.t) (top_n : py_arg) :
  SteamStatsAgent.game_analyzer self = Some analyzer ->
  exists limit ranked shown,
    SteamStatsAgent.get_most_played_games tz self top_n
    = Ok (GamesDict (map (entry_of tz) shown) (len shown)) /\
    shown = firstn (Z.to_nat limit) ranked /\
    Permutation ranked (games analyzer) /\
    StronglySorted
      (fun a b => playtime_minutes_total a >= playtime_minutes_total b) ranked /\
    (forall p, filter (fun g => playtime_minutes_total g =? p) ranked
               = filter (fun g => playtime_minutes_total g =? p) (games analyzer)) /\
    len shown = Z.min limit (len (games analyzer)) /\
    (forall n, top_n = ArgInt n -> 0 < n -> limit = n) /\
    (forall n, top_n = ArgInt n -> n <= 0 -> limit = 5) /\
    (top_n = ArgNonNumeric -> limit = 5).
Proof.
  intros E.
  pose proof (effective_limit_positive top_n 5 eq_refl) as Hpos.
  destruct (most_played_ranking (games analyzer)) as (Hperm & Hsorted & Hstable).
  set (ranked := py_sorted _ _ true (games analyzer)) in *.
  exists (effective_limit top_n 5), ranked,
         (firstn (Z.to_nat (effective_limit top_n 5)) ranked).
  split; [| split; [reflexivity | split; [exact Hperm | split; [exact Hsorted |
            split; [exact Hstable | split; [| split; [| split]]]]]]].
  - unfold SteamStatsAgent.get_most_played_games. rewrite E.
    rewrite coerce_positive_total. cbn [bind].
    rewrite most_played_listing. cbn [bind].
    rewrite slice_to_nonneg by lia. fold ranked. now rewrite len_map.
  - rewrite len_firstn by lia. unfold len.
    now rewrite (Permutation_length Hperm).
  - intros n -> Hn. unfold effective_limit.
    destruct (Z.ltb_spec 0 n); [reflexivity | lia].
  - intros n -> Hn. unfold effective_limit.
    destruct (Z.ltb_spec 0 n); [lia | reflexivity].
  - intros ->. reflexivity.
Qed.

Lemma most_played_spec_witness :
  exists shown,
    SteamStatsAgent.get_most_played_games utc scenario_agent (ArgInt 0)
    = Ok (GamesDict (map (entry_of utc) shown) (len shown)) /\
    len shown = 3.
Proof.
  destruct (most_played_spec utc scenario_agent scenario (ArgInt 0) eq_refl)
    as (limit & ranked & shown & Hcall & _ & _ & _ & _ & Hlen & _ & Hzero & _).
  exists shown. split; [exact Hcall |].
  rewrite Hlen, (Hzero 0 eq_refl (Z.le_refl 0)). reflexivity.
Defined.

(** C6. [least_played(limit)] lists only records with positive
    playtime, ranked by ascending playtime (equal playtimes in input
    order) and cut to [limit]; a record with zero playtime is never in
    that listing, while every such record of the same snapshot has its
    entry in the [unplayed_games()] listing. *)
Theorem least_played_spec (tz : tzinfo) (self : SteamStatsAgent.t)
        (analyzer : GameDataAnalyzer.t) (lib : SteamStatsAgent.library)
        (top_n : py_arg) :
  SteamStatsAgent.game_analyzer self = Some analyzer ->
  SteamStatsAgent.library_data self = Some lib ->
  games analyzer = owned_games_list (SteamStatsAgent.lib_game_data lib) ->
  exists ranked shown unplayed,
    SteamStatsAgent.get_least_played_games tz self top_n
    = Ok (GamesDict (map (entry_of tz) shown) (len shown)) /\
    shown = firstn (Z.to_nat (effective_limit top_n 5)) ranked /\
    Permutation ranked
      (filter (fun g => 0 <? playtime_minutes_total g) (games analyzer)) /\
    StronglySorted
      (fun a b => playtime_minutes_total a <= playtime_minutes_total b) ranked /\
    (forall p, filter (fun g => playtime_minutes_total g =? p) ranked
               = filter (fun g => playtime_minutes_total g =? p)
                        (filter (fun g => 0 <? playtime_minutes_total g)
                                (games analyzer))) /\
    Forall (fun g => In g (games analyzer) /\ 0 < playtime_minutes_total g) shown /\
    get_unplayed_games tz analyzer = Ok unplayed /\
    (forall g, In g (games analyzer) -> playtime_minutes_total g = 0 ->
               ~ In g shown /\ In (entry_of tz g) unplayed).
Proof.
  intros Ea El Eg.
  pose proof (effective_limit_positive top_n 5 eq_refl) as Hpos.
  set (played := filter (fun g => 0 <? playtime_minutes_total g) (games analyzer)).
  destruct (least_played_ranking played) as (Hperm & Hsorted & Hstable).
  set (ranked := py_sorted _ _ false played) in *.
  set (shown := firstn (Z.to_nat (effective_limit top_n 5)) ranked).
  assert (Hshown : Forall (fun g => In g (games analyzer) /\ 0 < playtime_minutes_total g)
                          shown).
  { apply Forall_forall. intros g Hg.
    apply In_firstn in Hg.
    apply (Permutation_in _ Hperm) in Hg.
    apply filter_In in Hg. destruct Hg as [Hin Hg]. split; [exact Hin | lia]. }
  exists ranked, shown,
         (map (entry_of tz)
              (filter (fun g => playtime_minutes_total g <? 60) (games analyzer))).
  split; [| split; [reflexivity | split; [exact Hperm | split; [exact Hsorted |
            split; [exact Hstable | split; [exact Hshown | split]]]]]].
  - unfold SteamStatsAgent.get_least_played_games. rewrite Ea, El.
    rewrite coerce_positive_total. cbn [bind].
    rewrite (for_append_total _ _ (entry_of tz)
               (fun g => agent_game_entry_total tz self analyzer g Ea)).
    cbn [bind app]. rewrite filter_true, slice_to_nonneg by lia.
    rewrite <- Eg. fold played. fold ranked. fold shown. now rewrite len_map.
  - apply unplayed_listing.
  - intros g Hin Hz. split.
    + intros Hg. rewrite Forall_forall in Hshown.
      destruct (Hshown g Hg) as [_ Hp]. lia.
    + apply in_map, filter_In. split; [exact Hin | lia].
Qed.

Lemma least_played_spec_witness :
  exists shown,
    SteamStatsAgent.get_least_played_games utc scenario_agent ArgNonNumeric
    = Ok (GamesDict (map (entry_of utc) shown) (len shown)) /\
    ~ In game_a shown.
Proof.
  destruct (least_played_spec utc scenario_agent scenario
              {| SteamStatsAgent.lib_steam_id := "76561198000000000";
                 SteamStatsAgent.lib_player_info := {| personaname := Some "player"%string |};
                 SteamStatsAgent.lib_game_data := scenario_owned |}
              ArgNonNumeric eq_refl eq_refl eq_refl)
    as (ranked & shown & unplayed & Hcall & _ & _ & _ & _ & _ & _ & Hzero).
  exists shown. split; [exact Hcall |].
  apply (Hzero game_a); [left; reflexivity | reflexivity].
Defined.

Lemma library_summary_spec_witness :
  exists s,
    get_library_summary scenario = Ok s /\
    total_games s = 3 /\ unplayed_count s = 2 /\ played_count s = 1.
Proof.
  destruct (library_summary_spec scenario)
    as (s & best & before & after & Hcall & Htotal & Hun & Hplayed & _).
  - discriminate.
  - exists s. rewrite Hplayed, Hun, Htotal. repeat split; [exact Hcall].
Defined.

(* ----------------------------------------------------------------- *)
(** *** The two queries that read the clock *)

Lemma recently_played_listing (tz : tzinfo) (now : Z) (self : GameDataAnalyzer.t)
      (days : Z) :
  get_recently_played_games tz now self days
  = Ok (py_sorted String.ltb view_last_played true
          (map (entry_of tz)
               (filter (fun g => cutoff_timestamp tz now days <? last_played_epoch g)
                       (games self)))).
Proof.
  unfold get_recently_played_games.
  rewrite (for_append_total _ _ (entry_of tz) (game_entry_total tz)).
  reflexivity.
Qed.

Lemma neglected_listing (tz : tzinfo) (now : Z) (self : GameDataAnalyzer.t) (days : Z) :
  get_neglected_games tz now self days
  = Ok (py_sorted float_lt view_playtime_hours true
          (map (neglected_entry_of tz now)
               (filter (neglected_condition (cutoff_timestamp tz now days))
                       (games self)))).
Proof.
  unfold get_neglected_games.
  rewrite (for_append_total _ _ (neglected_entry_of tz now)
             (neglected_entry_total tz now)).
  reflexivity.
Qed.

Lemma neglected_condition_iff (cutoff : Z) (g : game) :
  neglected_condition cutoff g = true <->
  120 <= playtime_minutes_total g /\
  0 < last_played_epoch g /\
  last_played_epoch g < cutoff.
Proof.
  unfold neglected_condition, playtime_minutes_total, last_played_epoch.
  rewrite !andb_true_iff, Z.leb_le, !Z.ltb_lt. tauto.
Qed.



(** C3, at days = 20000 with the clock at 14 November 2023: the
    cut-off falls in 1969, below the epoch, and the two records whose
    last-played epoch is 0 are listed as recently played. *)
Theorem recently_played_lists_never_played :
  cutoff_timestamp utc 1700000000 20000 = -28000000 /\
  get_recently_played_games utc 1700000000 scenario 20000
  = Ok [entry_of utc game_b; entry_of utc game_a; entry_of utc game_c] /\
  last_played_epoch game_a = 0 /\
  view_last_played (entry_of utc game_a) = "Never"%string.
Proof. repeat split. Qed.

(** The order of [recently_played] is that of the rendered dates: a
    game last played in September 2023 is listed before one last
    played in January 2024. *)
Example recently_played_orders_by_rendered_date :
  let september := {| name := Some "S"%string; appid := Some 10;
                      playtime_forever := Some 90;
                      rtime_last_played := Some 1694304000 |} in
  let january := {| name := Some "J"%string; appid := Some 11;
                    playtime_forever := Some 90;
                    rtime_last_played := Some 1704412800 |} in
  let self := GameDataAnalyzer.__init__
                {| payload_games := Some [january; september];
                   payload_game_count := Some 2 |} in
  exists l,
    get_recently_played_games utc 1705000000 self 365 = Ok l /\
    map view_last_played l = ["Sep 10, 2023"; "Jan 05, 2024"]%string.
Proof. eexists. split; reflexivity. Qed.

(* ----------------------------------------------------------------- *)
(** *** Records without any optional field *)


Lemma filter_none {A : Type} (p : A -> bool) (l : list A) :
  (forall x, In x l -> p x = false) -> filter p l = [].
Proof.
  induction l as [|x l IH]; intros H; simpl.
  - reflexivity.
  - rewrite (H x (or_introl eq_refl)). apply IH. intros y Hy. apply H. now right.
Qed.



(* ----------------------------------------------------------------- *)
(** *** What a query depends on *)




(* ----------------------------------------------------------------- *)
(** *** Before anything is loaded *)

(** C4, as the code has it.  On the agent as constructed, each of the
    nine tools that answer from the loaded library returns the dict
    [{"error": "No game data loaded"}]; [get_game_info] and
    [summarize_player_reviews] have no such check: they go to the
    store, and what they return, without raising, is never that dict. *)
Theorem no_data_before_load (tz : tzinfo) (now : Z) (api : SteamAPIHandler) :
  (forall c, library_tool c = true ->
             SteamStatsAgent.invoke tz now (SteamStatsAgent.__init__ api) c = Ok no_data) /\
  (forall game_name,
      exists r, SteamStatsAgent.get_game_info tz (SteamStatsAgent.__init__ api) game_name
                = Ok r /\ r <> no_data) /\
  (forall game_name num_reviews,
      exists r, SteamStatsAgent.summarize_player_reviews
                  (SteamStatsAgent.__init__ api) game_name num_reviews
                = Ok r /\ r <> no_data).
Proof.
  split; [| split].
  - intros [ | | | | | | | | | | ] H; try reflexivity; discriminate.
  - intros game_name.
    unfold SteamStatsAgent.get_game_info, SteamStatsAgent.lookup_owned.
    cbn [SteamStatsAgent.library_data SteamStatsAgent.__init__ SteamStatsAgent.steam_api].
    destruct (search_game api game_name) as [[hit|]|e]; cbn [bind].
    + destruct (get_game_details api (hit_appid hit)) as [d|e]; cbn [bind];
        eexists; (split; [reflexivity | discriminate]).
    + eexists; split; [reflexivity | discriminate].
    + eexists; split; [reflexivity | discriminate].
  - intros game_name num_reviews.
    unfold SteamStatsAgent.summarize_player_reviews, SteamStatsAgent.lookup_owned.
    cbn [SteamStatsAgent.library_data SteamStatsAgent.__init__ SteamStatsAgent.steam_api].
    destruct (search_game api game_name) as [[hit|]|e].
    + unfold SteamStatsAgent.review_summary, SteamStatsAgent.hit_as_dict.
      cbn [appid name dict_index bind SteamStatsAgent.steam_api SteamStatsAgent.__init__].
      destruct (get_game_reviews api (hit_appid hit) num_reviews) as [rs|e]; cbn [bind];
        eexists; (split; [reflexivity | discriminate]).
    + eexists; split; [reflexivity | discriminate].
    + eexists; split; [reflexivity | discriminate].
Qed.

Lemma no_data_before_load_witness :
  SteamStatsAgent.invoke utc 1700000000 (SteamStatsAgent.__init__ scenario_api)
    (SteamStatsAgent.call_get_least_played_games (ArgInt 3))
  = Ok no_data.
Proof.
  apply (proj1 (no_data_before_load utc 1700000000 scenario_api)).
  reflexivity.
Defined.

(** C4 as stated fails: on the agent as constructed [get_game_info]
    answers from the store search, here that the game was not found. *)
Lemma game_info_skips_the_check :
  ~ (forall c, SteamStatsAgent.invoke utc 1700000000
                 (SteamStatsAgent.__init__ scenario_api) c = Ok no_data).
Proof.
  intros H.
  specialize (H (SteamStatsAgent.call_get_game_info "Portal")).
  vm_compute in H. discriminate.
Qed.

(* ================================================================= *)
(** * Further properties of the analyzer *)

Lemma len_nonneg {A : Type} (l : list A) : 0 <= len l.
Proof. unfold len. lia. Qed.

Lemma len_filter_le {A : Type} (p : A -> bool) (l : list A) : len (filter p l) <= len l.
Proof.
  unfold len. induction l as [|x l IH]; simpl; [lia |].
  destruct (p x); simpl List.length; lia.
Qed.

Lemma len_filter_disjoint {A : Type} (p q : A -> bool) (l : list A) :
  (forall x, In x l -> p x = true -> q x = false) ->
  len (filter p l) + len (filter q l) <= len l.
Proof.
  unfold len. induction l as [|x l IH]; intros H; simpl; [lia |].
  assert (IH' : Z.of_nat (List.length (filter p l)) + Z.of_nat (List.length (filter q l))
                <= Z.of_nat (List.length l)).
  { apply IH. intros y Hy. apply H. now right. }
  destruct (p x) eqn:Px.
  - rewrite (H x (or_introl eq_refl) Px). simpl List.length. lia.
  - destruct (q x); simpl List.length; lia.
Qed.

Lemma len_py_sorted {A K : Type} (lt : K -> K -> bool) (key : A -> K)
      (reverse : bool) (l : list A) :
  len (py_sorted lt key reverse l) = len l.
Proof. unfold len. now rewrite (Permutation_length (py_sorted_perm lt key reverse l)). Qed.

(** The summary and the listings agree: [unplayed_count] is the length
    of the [unplayed_games()] listing, [played_count] is [total_games]
    minus it (so it is negative when fewer games are declared than are
    unplayed), and [total_playtime] is the value of [total_playtime()],
    except on an empty record list, where the summary holds the int [0]
    and [total_playtime()] the float [0.0]. *)
Theorem summary_agrees_with_listings (tz : tzinfo) (self : GameDataAnalyzer.t) :
  exists s listing total,
    get_library_summary self = Ok s /\
    get_unplayed_games tz self = Ok listing /\
    get_total_playtime self = Ok total /\
    unplayed_count s = len listing /\
    played_count s = total_games s - unplayed_count s /\
    (games self <> [] -> total_playtime s = NFloat total) /\
    (games self = [] -> total_playtime s = NInt 0 /\ total = S754_zero false).
Proof.
  destruct (games self) as [|g l] eqn:E.
  - exists empty_summary, [], (S754_zero false).
    unfold get_library_summary, get_unplayed_games, get_total_playtime.
    rewrite E. repeat split; congruence.
  - destruct (library_summary_value self)
      as (s & best & before & after & Hcall & Htotal & Hun & Hplayed & Htp & _).
    { rewrite E. discriminate. }
    exists s, (map (entry_of tz)
                   (filter (fun g => playtime_minutes_total g <? 60) (games self))),
           (hours_of (fold_right Z.add 0 (map playtime_minutes_total (games self)))).
    split; [exact Hcall |]. split; [apply unplayed_listing |].
    split.
    { unfold get_total_playtime. rewrite minutes_to_hours_total, py_sum_fold_right.
      reflexivity. }
    rewrite len_map. split; [exact Hun |]. split; [rewrite Hplayed, Htotal; reflexivity |].
    split; [intros _; exact Htp |]. rewrite E. discriminate.
Qed.

(** The head of a descending stable ranking is the first record of
    greatest playtime. *)
Lemma ranking_head (l : list game) (h : game) (t : list game)
      (best : game) (before after : list game) :
  py_sorted Z.ltb (fun x => dict_get (playtime_forever x) 0) true l = h :: t ->
  l = before ++ best :: after ->
  Forall (fun g => playtime_minutes_total g < playtime_minutes_total best) before ->
  Forall (fun g => playtime_minutes_total g <= playtime_minutes_total best) after ->
  h = best.
Proof.
  intros Hr Hl Hb Ha.
  destruct (most_played_ranking l) as (Hperm & Hsorted & Hstable).
  cbv zeta in Hperm, Hsorted, Hstable. rewrite Hr in Hperm, Hsorted, Hstable.
  assert (Hmax : forall g, In g l -> playtime_minutes_total g <= playtime_minutes_total best).
  { intros g Hg. rewrite Hl in Hg. apply in_app_or in Hg.
    rewrite Forall_forall in Hb, Ha.
    destruct Hg as [Hg|[<-|Hg]]; [specialize (Hb g Hg) | | specialize (Ha g Hg)]; lia. }
  assert (Hh : playtime_minutes_total h = playtime_minutes_total best).
  { apply Z.le_antisymm.
    - apply Hmax. apply (Permutation_in _ Hperm). now left.
    - assert (Hin : In best (h :: t)).
      { apply (Permutation_in _ (Permutation_sym Hperm)). rewrite Hl. apply in_elt. }
      apply StronglySorted_inv in Hsorted. destruct Hsorted as [_ Hsorted].
      rewrite Forall_forall in Hsorted.
      destruct Hin as [<-|Hin]; [lia | specialize (Hsorted best Hin); lia]. }
  specialize (Hstable (playtime_minutes_total best)).
  rewrite Hl, filter_app in Hstable. simpl in Hstable.
  rewrite Hh, !Z.eqb_refl in Hstable.
  rewrite (filter_none _ before) in Hstable.
  - simpl in Hstable. congruence.
  - intros g Hg. rewrite Forall_forall in Hb. specialize (Hb g Hg). lia.
Qed.

(** On a non-empty record list the first entry of [most_played(limit)],
    for any positive limit, is the summary's most-played game: same
    name, same hours. *)
Theorem most_played_head_is_summary_best (tz : tzinfo) (self : GameDataAnalyzer.t)
        (limit : Z) :
  0 < limit -> games self <> [] ->
  exists first rest s e,
    get_most_played_games tz self limit = Ok (first :: rest) /\
    get_library_summary self = Ok s /\
    most_played_game s = Some e /\
    mp_name e = view_name first /\
    mp_playtime_hours e = view_playtime_hours first.
Proof.
  intros Hlimit Hne.
  destruct (library_summary_value self Hne)
    as (s & best & before & after & Hcall & _ & _ & _ & _ & Hsplit & Hb & Ha & Hmp & _).
  rewrite most_played_listing, slice_to_nonneg by lia.
  destruct (py_sorted Z.ltb (fun x => dict_get (playtime_forever x) 0) true (games self))
    as [|h t] eqn:Hr.
  - exfalso. apply Hne. apply Permutation_nil.
    rewrite <- Hr. apply py_sorted_perm.
  - rewrite (ranking_head _ h t best before after Hr Hsplit Hb Ha).
    destruct (Z.to_nat limit) as [|k] eqn:Hk; [lia |]. simpl.
    eexists _, _, s, _.
    split; [reflexivity |]. split; [exact Hcall |]. split; [exact Hmp |].
    split; reflexivity.
Qed.

Lemma most_played_head_is_summary_best_witness :
  exists first rest,
    get_most_played_games utc scenario 1 = Ok (first :: rest) /\
    view_name first = "B"%string.
Proof.
  destruct (most_played_head_is_summary_best utc scenario 1)
    as (first & rest & s & e & Hcall & Hsum & Hmp & Hname & _).
  - reflexivity.
  - discriminate.
  - exists first, rest. split; [exact Hcall |].
    rewrite <- Hname.
    assert (Hs : Ok s = Ok _) by (rewrite <- Hsum; apply scenario_summary).
    injection Hs as ->. simpl in Hmp. injection Hmp as <-. reflexivity.
Defined.

(** For one clock reading and one [days], no record is both recently
    played and neglected, and no record is both unplayed and neglected:
    the two pairs of listings together never hold more entries than the
    library has records. *)
Theorem neglected_is_disjoint (tz : tzinfo) (now : Z) (self : GameDataAnalyzer.t)
        (days : Z) :
  exists recent neglected unplayed,
    get_recently_played_games tz now self days = Ok recent /\
    get_neglected_games tz now self days = Ok neglected /\
    get_unplayed_games tz self = Ok unplayed /\
    len recent + len neglected <= len (games self) /\
    len unplayed + len neglected <= len (games self).
Proof.
  rewrite recently_played_listing, neglected_listing, unplayed_listing.
  eexists _, _, _. repeat (split; [reflexivity |]).
  rewrite !len_py_sorted, !len_map. split.
  - apply len_filter_disjoint. intros g _ Hrecent.
    unfold neglected_condition, last_played_epoch in *.
    rewrite !andb_false_iff, Z.ltb_ge. right. lia.
  - apply len_filter_disjoint. intros g _ Hun.
    unfold neglected_condition, playtime_minutes_total in *.
    rewrite !andb_false_iff, Z.leb_gt. left. left. lia.
Qed.

(** When the time zone maps an instant before the epoch time of a wall
    time to a wall time before it (every fixed-offset zone does), each
    entry of [neglected_games(days)] reports [days_since_played] of at
    least [days]. *)
Theorem neglected_days_since_at_least_days (tz : tzinfo) (now : Z)
        (self : GameDataAnalyzer.t) (days : Z) :
  (forall t w, t < mktime tz w -> localtime tz t < w) ->
  exists listing,
    get_neglected_games tz now self days = Ok listing /\
    Forall (fun v => exists d, view_days_since_played v = Some d /\ days <= d) listing.
Proof.
  intros Htz. rewrite neglected_listing. eexists. split; [reflexivity |].
  eapply Permutation_Forall; [symmetry; apply py_sorted_perm |].
  apply Forall_forall. intros v Hv. apply in_map_iff in Hv.
  destruct Hv as (g & <- & Hg). apply filter_In in Hg. destruct Hg as [_ Hg].
  apply neglected_condition_iff in Hg. destruct Hg as (_ & _ & Hold).
  eexists. split; [reflexivity |].
  unfold cutoff_timestamp in Hold. apply Htz in Hold.
  unfold seconds_per_day in Hold.
  apply Z.div_le_lower_bound; lia.
Qed.

Lemma neglected_days_since_at_least_days_witness :
  exists listing,
    get_neglected_games utc 1800000000 scenario 365 = Ok listing /\
    Forall (fun v => exists d, view_days_since_played v = Some d /\ 365 <= d) listing.
Proof.
  apply (neglected_days_since_at_least_days utc 1800000000 scenario 365).
  intros t w H. exact H.
Defined.

(** Called directly, the analyzer's [get_most_played_games] slices the
    ranking with the limit as given: a limit of 0 yields no entry, a
    positive limit at most that many, and a negative limit [-k] drops
    the [k] least played records instead of limiting the listing. *)
Theorem most_played_raw_limit_lengths (tz : tzinfo) (self : GameDataAnalyzer.t)
        (limit : Z) :
  exists listing,
    get_most_played_games tz self limit = Ok listing /\
    (0 <= limit -> len listing = Z.min limit (len (games self))) /\
    (limit < 0 -> len listing = Z.max 0 (len (games self) + limit)).
Proof.
  rewrite most_played_listing. eexists. split; [reflexivity |].
  rewrite len_map. unfold slice_to. split; intros H.
  - destruct (Z.ltb_spec limit 0); [lia |].
    rewrite len_firstn, len_py_sorted by lia. reflexivity.
  - destruct (Z.ltb_spec limit 0); [| lia].
    unfold len. rewrite length_firstn.
    rewrite (Permutation_length (py_sorted_perm _ _ _ _)). lia.
Qed.

Lemma sum_permutation (l1 l2 : list game) :
  Permutation l1 l2 ->
  fold_right Z.add 0 (map playtime_minutes_total l1)
  = fold_right Z.add 0 (map playtime_minutes_total l2).
Proof. induction 1; cbn [map fold_right]; lia. Qed.

Lemma filter_permutation {A : Type} (p : A -> bool) (l1 l2 : list A) :
  Permutation l1 l2 -> Permutation (filter p l1) (filter p l2).
Proof.
  induction 1 as [|x l1 l2 H IH|x y l|l1 l2 l3 H1 IH1 H2 IH2]; simpl.
  - constructor.
  - destruct (p x); [now constructor | exact IH].
  - destruct (p x), (p y); try apply Permutation_refl. apply perm_swap.
  - eapply perm_trans; eassumption.
Qed.

(** The totals do not depend on the order of the records: two
    snapshots with the same records in another order and the same
    declared count have the same total playtime and the same counts in
    their summaries. *)
Theorem totals_ignore_record_order (self other : GameDataAnalyzer.t) :
  Permutation (games self) (games other) ->
  game_count self = game_count other ->
  get_total_playtime self = get_total_playtime other /\
  exists s s',
    get_library_summary self = Ok s /\
    get_library_summary other = Ok s' /\
    total_games s = total_games s' /\
    total_playtime s = total_playtime s' /\
    unplayed_count s = unplayed_count s' /\
    played_count s = played_count s' /\
    average_playtime s = average_playtime s'.
Proof.
  intros Hperm Hcount.
  assert (Hsum : fold_right Z.add 0 (map playtime_minutes_total (games self))
                 = fold_right Z.add 0 (map playtime_minutes_total (games other))).
  { apply sum_permutation, Hperm. }
  assert (Hlen : forall p : game -> bool,
             len (filter p (games self)) = len (filter p (games other))).
  { intros p. unfold len. f_equal. apply Permutation_length.
    apply filter_permutation, Hperm. }
  split.
  { unfold get_total_playtime. rewrite !minutes_to_hours_total, !py_sum_fold_right.
    unfold playtime_minutes_total in Hsum. now rewrite Hsum. }
  destruct (games self) as [|g l] eqn:E.
  - apply Permutation_nil in Hperm.
    exists empty_summary, empty_summary.
    unfold get_library_summary. rewrite E, Hperm. repeat split.
  - assert (Hne : games other <> []).
    { intros E'. rewrite E' in Hperm. apply Permutation_sym, Permutation_nil in Hperm.
      discriminate. }
    destruct (library_summary_value other Hne)
      as (s' & b' & bf' & af' & Hc' & Ht' & Hu' & Hp' & Htp' & _ & _ & _ & _ & Hav1' & Hav2').
    destruct (library_summary_value self)
      as (s & b & bf & af & Hc & Ht & Hu & Hp & Htp & _ & _ & _ & _ & Hav1 & Hav2).
    { rewrite E. discriminate. }
    rewrite E in *.
    assert (Eu : unplayed_count s = unplayed_count s') by (rewrite Hu, Hu'; apply Hlen).
    assert (Ep : played_count s = played_count s') by (rewrite Hp, Hp', Eu, Hcount; reflexivity).
    exists s, s'. repeat split; try assumption.
    + now rewrite Ht, Ht'.
    + now rewrite Htp, Htp', Hsum.
    + destruct (Z.ltb_spec 0 (played_count s)) as [Hpos|Hpos].
      * rewrite (Hav1 Hpos), Hav1' by lia. now rewrite Hsum, Ep.
      * rewrite (Hav2 Hpos), Hav2' by lia. reflexivity.
Qed.

Lemma totals_ignore_record_order_witness :
  get_total_playtime scenario
  = get_total_playtime
      (GameDataAnalyzer.__init__
         {| payload_games := Some [game_c; game_b; game_a];
            payload_game_count := Some 3 |}).
Proof.
  apply (totals_ignore_record_order scenario
           (GameDataAnalyzer.__init__
              {| payload_games := Some [game_c; game_b; game_a];
                 payload_game_count := Some 3 |})).
  - simpl. eapply perm_trans; [apply perm_skip, perm_swap |].
    eapply perm_trans; [apply perm_swap |]. apply perm_skip, perm_swap.
  - reflexivity.
Defined.

(* ================================================================= *)
(** * Further properties of the agent *)

(** The two ways [load_user_data] can end. *)
Lemma load_user_data_cases (tz : tzinfo) (now : Z) (self : SteamStatsAgent.t)
        (steam_id_or_vanity : string) :
  let after := fst (SteamStatsAgent.load_user_data tz now self steam_id_or_vanity) in
  let status := snd (SteamStatsAgent.load_user_data tz now self steam_id_or_vanity) in
  (exists e, status = SteamStatsAgent.LoadFailed e /\ after = self) \/
  (exists steam_id vanity gd info lib a,
      validate_steam_id (SteamStatsAgent.steam_api self) steam_id_or_vanity
      = Ok (steam_id, vanity) /\
      get_owned_games (SteamStatsAgent.steam_api self) steam_id = Ok gd /\
      get_player_summaries (SteamStatsAgent.steam_api self) steam_id = Ok info /\
      status = SteamStatsAgent.Loaded (dict_get (personaname info) "Unknown Player"%string)
                                      (owned_game_count gd) /\
      SteamStatsAgent.steam_api after = SteamStatsAgent.steam_api self /\
      SteamStatsAgent.library_data after = Some lib /\
      SteamStatsAgent.lib_game_data lib = gd /\
      SteamStatsAgent.game_analyzer after
      = Some (GameDataAnalyzer.__init__ (SteamStatsAgent.as_payload gd)) /\
      SteamStatsAgent.analysis_data after = Some a /\
      get_library_summary (GameDataAnalyzer.__init__ (SteamStatsAgent.as_payload gd))
      = Ok (SteamStatsAgent.an_summary a) /\
      get_most_played_games tz (GameDataAnalyzer.__init__ (SteamStatsAgent.as_payload gd)) 10
      = Ok (SteamStatsAgent.an_most_played a) /\
      get_unplayed_games tz (GameDataAnalyzer.__init__ (SteamStatsAgent.as_payload gd))
      = Ok (SteamStatsAgent.an_unplayed a)).
Proof.
  cbv zeta. unfold SteamStatsAgent.load_user_data.
  destruct (validate_steam_id _ steam_id_or_vanity) as [[steam_id vanity]|e] eqn:Ev;
    [| left; exists e; split; reflexivity].
  destruct (get_owned_games _ steam_id) as [gd|e] eqn:Eg;
    [| left; exists e; split; reflexivity].
  destruct (get_player_summaries _ steam_id) as [info|e] eqn:Ep;
    [| left; exists e; split; reflexivity].
  right.
  set (analyzer := GameDataAnalyzer.__init__ (SteamStatsAgent.as_payload gd)).
  destruct (library_summary_total analyzer) as (s & Hs).
  rewrite Hs, most_played_listing, unplayed_listing, recently_played_listing,
    neglected_listing.
  cbn [bind fst snd].
  eexists steam_id, vanity, gd, info, _, _.
  split; [reflexivity |]. split; [exact Eg |]. split; [exact Ep |].
  repeat (split; [reflexivity |]).
  cbn [SteamStatsAgent.an_summary SteamStatsAgent.an_most_played
       SteamStatsAgent.an_unplayed].
  split; [exact Hs |].
  split; [apply most_played_listing | apply unplayed_listing].
Qed.






(** What the agent answers from its analysis is what the analyzer
    returns when asked again: [get_library_summary] returns the
    analyzer's summary, [get_total_game_count] its three counts, and
    [list_unplayed_games] the first [limit] entries (10 unless a
    positive limit is given) of the analyzer's unplayed listing, with
    the full count and the number shown. *)
Theorem loaded_answers_match_analyzer (tz : tzinfo) (now : Z) (self : SteamStatsAgent.t)
        (steam_id_or_vanity : string) (player_name : string) (count : Z) :
  snd (SteamStatsAgent.load_user_data tz now self steam_id_or_vanity)
  = SteamStatsAgent.Loaded player_name count ->
  let after := fst (SteamStatsAgent.load_user_data tz now self steam_id_or_vanity) in
  exists analyzer s unplayed,
    SteamStatsAgent.game_analyzer after = Some analyzer /\
    get_library_summary analyzer = Ok s /\
    get_unplayed_games tz analyzer = Ok unplayed /\
    SteamStatsAgent.get_library_summary after = Ok (SummaryDict s) /\
    SteamStatsAgent.get_total_game_count after
    = Ok (GameCountDict (total_games s) (played_count s) (unplayed_count s)) /\
    SteamStatsAgent.get_total_playtime after
    = Ok (PlaytimeDict (total_playtime s) (average_playtime s)) /\
    (forall limit,
        SteamStatsAgent.list_unplayed_games after limit
        = Ok (PageDict (firstn (Z.to_nat (effective_limit limit 10)) unplayed)
                       (len unplayed)
                       (len (firstn (Z.to_nat (effective_limit limit 10)) unplayed)))).
Proof.
  intros Hstatus after. subst after.
  destruct (load_user_data_cases tz now self steam_id_or_vanity)
    as [(e & He & _)|(sid & v & gd & info & lib & a & _ & _ & _ & _ & _ & _ & _ & Ea & Ead
                      & Hs & _ & Hun)].
  - rewrite He in Hstatus. discriminate.
  - eexists _, _, _. split; [exact Ea |]. split; [exact Hs |]. split; [exact Hun |].
    unfold SteamStatsAgent.get_library_summary, SteamStatsAgent.get_total_game_count,
      SteamStatsAgent.get_total_playtime, SteamStatsAgent.list_unplayed_games.
    rewrite Ead. repeat (split; [reflexivity |]).
    intros limit. rewrite coerce_positive_total. cbn [bind].
    pose proof (effective_limit_positive limit 10 eq_refl).
    rewrite slice_to_nonneg, len_firstn by lia. reflexivity.
Qed.

Lemma loaded_answers_match_analyzer_witness :
  exists s,
    get_library_summary scenario = Ok s /\
    SteamStatsAgent.get_library_summary scenario_agent = Ok (SummaryDict s).
Proof.
  destruct (loaded_answers_match_analyzer utc 1700000000
              (SteamStatsAgent.__init__ scenario_api) "76561198000000000" "player" 3
              eq_refl)
    as (analyzer & s & unplayed & Ea & Hs & _ & Hsum & _).
  exists s. split; [| exact Hsum].
  injection Ea as <-. exact Hs.
Defined.



(* ----------------------------------------------------------------- *)
(** *** Looking a game up by name *)







(* ----------------------------------------------------------------- *)
(** *** The two store tools *)

Lemma lower_empty (s : string) : lower s = ""%string -> s = ""%string.
Proof. destruct s; [reflexivity | discriminate]. Qed.

(** [get_game_info] never raises once an analyzer is present: whatever
    the store does (fail, find nothing, find a game) and whether the
    library entry has an [appid] or not, a dict is returned. *)
Theorem get_game_info_never_raises (tz : tzinfo) (self : SteamStatsAgent.t)
        (analyzer : GameDataAnalyzer.t) (game_name : string) :
  SteamStatsAgent.game_analyzer self = Some analyzer ->
  exists r, SteamStatsAgent.get_game_info tz self game_name = Ok r.
Proof.
  intros Ea.
  pose proof (fun g => agent_game_entry_total tz self analyzer g Ea) as Hentry.
  unfold SteamStatsAgent.get_game_info.
  destruct (match SteamStatsAgent.lookup_owned self game_name with
            | Some g => if SteamStatsAgent.dict_truthy g then Some g else None
            | None => None
            end) as [g|].
  - unfold SteamStatsAgent.analyzer_hours, SteamStatsAgent.analyzer_format.
    rewrite Ea, Hentry.
    destruct (appid g) as [id|]; cbn [dict_index bind]; [| eexists; reflexivity].
    destruct (get_game_details _ id); cbn [bind]; eexists; reflexivity.
  - destruct (search_game _ game_name) as [[hit|]|e]; cbn [bind];
      [| eexists; reflexivity | eexists; reflexivity].
    destruct (get_game_details _ (hit_appid hit)); cbn [bind]; eexists; reflexivity.
Qed.

Lemma get_game_info_never_raises_witness :
  exists r, SteamStatsAgent.get_game_info utc scenario_agent "B" = Ok r.
Proof. apply (get_game_info_never_raises utc scenario_agent scenario "B" eq_refl). Defined.

(** A library with one entry that has an [appid] and no [name]. *)
Lemma nameless_entry_raises :
  let nameless := {| name := None; appid := Some 7;
                     playtime_forever := None; rtime_last_played := None |} in
  let self := {| SteamStatsAgent.steam_api := scenario_api;
                 SteamStatsAgent.library_data :=
                   Some {| SteamStatsAgent.lib_steam_id := "1";
                           SteamStatsAgent.lib_player_info := {| personaname := None |};
                           SteamStatsAgent.lib_game_data :=
                             {| owned_game_count := 1; owned_games_list := [nameless] |} |};
                 SteamStatsAgent.analysis_data := None;
                 SteamStatsAgent.game_analyzer := None |} in
  SteamStatsAgent.summarize_player_reviews self "" (ArgInt 5) = Raise (KeyError "name").
Proof. reflexivity. Qed.

(** [summarize_player_reviews] returns a dict, without raising, for
    every non-empty game name, in every state of the agent and whatever
    the store does; when it returns review counts, the positive and the
    negative count are not negative and add up to the review count,
    which is the number of review texts.  For the empty name it can
    raise: a library entry without a name matches it, and the handler
    then reads the missing ["name"] key. *)
Theorem summarize_player_reviews_safe (self : SteamStatsAgent.t) (game_name : string)
        (num_reviews : py_arg) :
  game_name <> ""%string ->
  exists r,
    SteamStatsAgent.summarize_player_reviews self game_name num_reviews = Ok r /\
    (forall shown owned n pos neg texts,
        r = ReviewsDict shown owned n pos neg texts ->
        0 <= pos /\ 0 <= neg /\ pos + neg = n /\ n = len texts).
Proof.
  intros Hname.
  assert (Hcounts : forall reviews : list review,
             0 <= py_sum (map (fun _ => 1) (filter review_voted_up reviews)) /\
             0 <= len reviews - py_sum (map (fun _ => 1) (filter review_voted_up reviews)) /\
             py_sum (map (fun _ => 1) (filter review_voted_up reviews))
             + (len reviews - py_sum (map (fun _ => 1) (filter review_voted_up reviews)))
             = len reviews /\
             len reviews = len (map review_text reviews)).
  { intros reviews. rewrite py_sum_ones, len_map.
    pose proof (len_filter_le review_voted_up reviews).
    pose proof (len_nonneg (filter review_voted_up reviews)). lia. }
  assert (Hsummary : forall g shown,
             name g = Some shown ->
             exists r,
               SteamStatsAgent.review_summary self g num_reviews = Ok r /\
               (forall shown' owned n pos neg texts,
                   r = ReviewsDict shown' owned n pos neg texts ->
                   0 <= pos /\ 0 <= neg /\ pos + neg = n /\ n = len texts)).
  { intros g shown Hg. unfold SteamStatsAgent.review_summary. rewrite Hg.
    destruct (appid g) as [id|]; cbn [dict_index bind];
      [| eexists; split; [reflexivity | discriminate]].
    destruct (get_game_reviews _ id num_reviews) as [reviews|e]; cbn [bind];
      [| eexists; split; [reflexivity | discriminate]].
    eexists; split; [reflexivity |].
    intros shown' owned n pos neg texts H. injection H as <- <- <- <- <- <-.
    apply Hcounts. }
  unfold SteamStatsAgent.summarize_player_reviews, SteamStatsAgent.lookup_owned.
  destruct (SteamStatsAgent.library_data self) as [lib|].
  - destruct (find _ _) as [g|] eqn:Hfind.
    + apply find_some in Hfind. destruct Hfind as [_ Hmatch].
      apply String.eqb_eq in Hmatch.
      destruct (name g) as [shown|] eqn:Hg.
      * destruct (SteamStatsAgent.dict_truthy g).
        { apply (Hsummary g shown Hg). }
        destruct (search_game _ game_name) as [[hit|]|e];
          [apply (Hsummary (SteamStatsAgent.hit_as_dict hit) (hit_name hit) eq_refl)
          | eexists; split; [reflexivity | discriminate]
          | eexists; split; [reflexivity | discriminate]].
      * exfalso. apply Hname. apply lower_empty. simpl in Hmatch. now symmetry.
    + destruct (search_game _ game_name) as [[hit|]|e];
        [apply (Hsummary (SteamStatsAgent.hit_as_dict hit) (hit_name hit) eq_refl)
        | eexists; split; [reflexivity | discriminate]
        | eexists; split; [reflexivity | discriminate]].
  - destruct (search_game _ game_name) as [[hit|]|e];
      [apply (Hsummary (SteamStatsAgent.hit_as_dict hit) (hit_name hit) eq_refl)
      | eexists; split; [reflexivity | discriminate]
      | eexists; split; [reflexivity | discriminate]].
Qed.

Lemma summarize_player_reviews_safe_witness :
  exists r, SteamStatsAgent.summarize_player_reviews scenario_agent "B" (ArgInt 5) = Ok r.
Proof.
  destruct (summarize_player_reviews_safe scenario_agent "B" (ArgInt 5))
    as (r & Hr & _).
  - discriminate.
  - exists r. exact Hr.
Defined.

(* ================================================================= *)
(** * Choosing the model *)

Lemma id_eqb_eq (a b : option string) : id_eqb a b = true <-> a = b.
Proof.
  destruct a as [x|], b as [y|]; simpl; try (split; [discriminate | congruence]).
  - rewrite String.eqb_eq. split; congruence.
  - split; reflexivity.
Qed.

Lemma available_iff (p : string) (available : list (option string)) :
  existsb (fun a => id_eqb a (Some p)) available = true <-> In (Some p) available.
Proof.
  rewrite existsb_exists. split.
  - intros (a & Ha & Heq). apply id_eqb_eq in Heq. now subst.
  - intros H. exists (Some p). split; [exact H | now apply id_eqb_eq].
Qed.

Lemma first_preferred_some (preferred : list string) (available : list (option string))
      (m : string) :
  ModelSetup.first_preferred preferred available = Some m ->
  exists before after,
    preferred = before ++ m :: after /\
    In (Some m) available /\
    (forall q, In q before -> ~ In (Some q) available).
Proof.
  induction preferred as [|p rest IH]; simpl; [discriminate |].
  destruct (existsb _ available) eqn:E.
  - intros H. injection H as <-. exists [], rest.
    split; [reflexivity |]. split; [now apply available_iff | intros q []].
  - intros H. destruct (IH H) as (before & after & -> & Hin & Hbefore).
    exists (p :: before), after. split; [reflexivity |]. split; [exact Hin |].
    intros q [<-|Hq]; [| now apply Hbefore].
    intros Hp. apply available_iff in Hp. congruence.
Qed.

Lemma first_preferred_none (preferred : list string) (available : list (option string)) :
  ModelSetup.first_preferred preferred available = None <->
  (forall p, In p preferred -> ~ In (Some p) available).
Proof.
  induction preferred as [|p rest IH]; simpl.
  - split; [intros _ p [] | reflexivity].
  - destruct (existsb _ available) eqn:E.
    + split; [discriminate |]. intros H. exfalso.
      apply (H p (or_introl eq_refl)). now apply available_iff.
    + rewrite IH. split.
      * intros H q [<-|Hq]; [| now apply H].
        intros Hp. apply available_iff in Hp. congruence.
      * intros H q Hq. apply H. now right.
Qed.

(** [check_available_models] returns, in the order of the response,
    the ids of exactly the models whose lifecycle status is "ACTIVE" (a
    model without a lifecycle or without a status is left out, a model
    without an id contributes [None]); it returns the empty list when
    the request raises or the response has no model list. *)
Theorem check_available_models_spec (bedrock : result foundation_models) :
  (forall e, bedrock = Raise e -> ModelSetup.check_available_models bedrock = []) /\
  (forall response,
      bedrock = Ok response ->
      (modelSummaries response = None -> ModelSetup.check_available_models bedrock = []) /\
      (forall models,
          modelSummaries response = Some models ->
          (exists keep, ModelSetup.check_available_models bedrock
                        = map modelId (filter keep models)) /\
          (forall id, In id (ModelSetup.check_available_models bedrock) <->
                      exists model lifecycle,
                        In model models /\ modelId model = id /\
                        modelLifecycle model = Some lifecycle /\
                        status lifecycle = Some "ACTIVE"%string))).
Proof.
  split; [intros e ->; reflexivity |].
  intros response ->. unfold ModelSetup.check_available_models. cbn [bind].
  rewrite (for_append_total _ _ modelId (fun _ => eq_refl)). cbn [app].
  split; [intros ->; reflexivity |].
  intros models ->. cbn [dict_get].
  split; [now exists ModelSetup.is_active |].
  intros id. rewrite in_map_iff. split.
  - intros (model & Hid & Hin). apply filter_In in Hin. destruct Hin as [Hin Hactive].
    unfold ModelSetup.is_active in Hactive. apply id_eqb_eq in Hactive.
    destruct (modelLifecycle model) as [lifecycle|] eqn:E; [| discriminate].
    exists model, lifecycle. auto.
  - intros (model & lifecycle & Hin & Hid & Hl & Hs).
    exists model. split; [exact Hid |]. apply filter_In. split; [exact Hin |].
    unfold ModelSetup.is_active. rewrite Hl, Hs. reflexivity.
Qed.

(** When no agent exists yet, [initialize_agent_with_available_model]
    builds one whose model id is never empty; it is the first of the
    preferred models that is available, whenever one of them is;
    otherwise the first available model, when that id is not empty;
    otherwise the default model.  So the id chosen is an available one
    or the default. *)
Theorem model_choice (bedrock : result foundation_models) :
  let available := ModelSetup.check_available_models bedrock in
  let built := ModelSetup.initialize_agent_with_available_model None bedrock in
  exists m,
    fst built = Some (snd built) /\
    agent_model_id (snd built) = Some m /\
    m <> ""%string /\
    (In (Some m) available \/ m = ModelSetup.default_model) /\
    ((exists p, In p ModelSetup.preferred_models /\ In (Some p) available) ->
     exists before after,
       ModelSetup.preferred_models = before ++ m :: after /\
       In (Some m) available /\
       (forall q, In q before -> ~ In (Some q) available)) /\
    ((forall p, In p ModelSetup.preferred_models -> ~ In (Some p) available) ->
     (forall first rest, available = first :: rest -> id_truthy first = true ->
                         first = Some m) /\
     (forall first rest, available = first :: rest -> id_truthy first = false ->
                         m = ModelSetup.default_model) /\
     (available = [] -> m = ModelSetup.default_model)).
Proof.
  intros available built. subst built.
  unfold ModelSetup.initialize_agent_with_available_model,
    ModelSetup.initialize_agent_with_model_id.
  fold available. clearbody available. cbn [fst snd agent_model_id].
  destruct (ModelSetup.first_preferred ModelSetup.preferred_models available)
    as [p|] eqn:Hp.
  - destruct (first_preferred_some _ _ _ Hp) as (before & after & Hsplit & Hin & Hbefore).
    assert (Htruthy : id_truthy (Some p) = true).
    { assert (Hpref : In p ModelSetup.preferred_models)
        by (rewrite Hsplit; apply in_elt).
      destruct Hpref as [<-|[<-|[<-|[]]]]; reflexivity. }
    assert (Hchosen : forall av : list (option string),
              (if id_truthy
                    match av with
                    | [] => Some p
                    | first :: _ => if id_truthy (Some p) then Some p else first
                    end
               then match av with
                    | [] => Some p
                    | first :: _ => if id_truthy (Some p) then Some p else first
                    end
               else Some ModelSetup.default_model) = Some p).
    { intros av. destruct av; repeat rewrite Htruthy; reflexivity. }
    rewrite Hchosen. exists p.
    split; [reflexivity |]. split; [reflexivity |].
    split.
    { intros ->. discriminate. }
    split; [left; exact Hin |].
    split.
    { intros _. exists before, after. auto. }
    intros Hnone. exfalso. apply (Hnone p); [rewrite Hsplit; apply in_elt | exact Hin].
  - assert (Hnone := proj1 (first_preferred_none _ _) Hp).
    destruct available as [|first rest] eqn:Ha.
    + cbn [id_truthy]. exists ModelSetup.default_model.
      repeat split; try discriminate.
      * now right.
      * intros (p & _ & []).
    + cbn [id_truthy]. destruct (id_truthy first) eqn:Hf.
      * destruct first as [m|]; [| discriminate]. exists m.
        split; [reflexivity |]. split; [reflexivity |].
        split.
        { intros ->. discriminate. }
        split; [left; now left |].
        split.
        { intros (p & Hpref & Hin). exfalso. apply (Hnone p Hpref Hin). }
        intros _. split; [| split].
        -- intros f r H _. now injection H as <- <-.
        -- intros f r H Hf'. injection H as <- <-. congruence.
        -- discriminate.
      * exists ModelSetup.default_model.
        split; [reflexivity |]. split; [reflexivity |].
        split; [discriminate |]. split; [now right |].
        split.
        { intros (p & Hpref & Hin). exfalso. apply (Hnone p Hpref Hin). }
        intros _. split; [| split].
        -- intros f r H Hf'. injection H as <- <-. congruence.
        -- reflexivity.
        -- discriminate.
Qed.

(** The agent is created once: after any initialisation, a later one
    returns the agent that exists, with the model it was built with,
    whatever model id is asked for and whatever models are available. *)
Theorem agent_created_once (agent : option strands_agent) (model_id : option string)
        (bedrock : result foundation_models) (later_id : option string)
        (later_bedrock : result foundation_models) :
  let first := ModelSetup.initialize_agent_with_model_id agent model_id in
  let auto := ModelSetup.initialize_agent_with_available_model agent bedrock in
  ModelSetup.initialize_agent_with_model_id (fst first) later_id = first /\
  ModelSetup.initialize_agent_with_available_model (fst first) later_bedrock = first /\
  ModelSetup.initialize_agent_with_model_id (fst auto) later_id = auto /\
  ModelSetup.initialize_agent_with_available_model (fst auto) later_bedrock = auto.
Proof.
  destruct agent as [a|]; repeat split.
Qed.

(* ================================================================= *)
(** * The hours shown are a number, and not below zero *)





